(** * ASTER L1T processing: radiance and reflectance of a scene

    A shallow embedding of [process_aster_dataset] (asterl1t.py) and of the
    module-level calibration tables it reads, with the properties of the
    conversion proved about the embedding.

    Conventions of the model:
    - pixel values are IEEE-754 binary64 numbers (Rocq's primitive floats),
      the dtype of a default numpy array; the destination array is taken to
      be a float64 array, and a float32 number (the solar direction) is the
      binary64 number of the same value;
    - numpy arrays that the code mutates or aliases live in a heap of
      array objects addressed by locations; exceptions are values of [exn]
      and leave the heap as it was when they were raised;
    - what the code calls in gdal, rasterio and numpy's transcendental
      functions is gathered in the class [Platform]: the model is
      parametric in it. *)

From Stdlib Require Import ZArith Floats Ascii String.
From stdpp Require Import base gmap strings list fin_maps.

Set Warnings "-inexact-float".
Set Default Proof Using "Type".

Open Scope string_scope.

(** ** Exceptions and results *)

Inductive exn : Type :=
| KeyError (key : string)
| IndexError
| ValueError
| AttributeError
| ExternalError (msg : string).

Inductive result (A : Type) : Type :=
| Ok (a : A)
| Raise (e : exn).
Arguments Ok {A} a.
Arguments Raise {A} e.

Definition is_ok {A} (r : result A) : bool :=
  match r with Ok _ => true | Raise _ => false end.

Definition rbind {A B} (r : result A) (k : A → result B) : result B :=
  match r with Ok a => k a | Raise e => Raise e end.

(** [d[k]] on a Python dict with string keys. *)
Definition getitem {V} (d : gmap string V) (k : string) : result V :=
  match d !! k with Some v => Ok v | None => Raise (KeyError k) end.

(** [l[i]] on a Python list or a 1-d array, [i] not negative. *)
Definition getidx {V} (l : list V) (i : nat) : result V :=
  match l !! i with Some v => Ok v | None => Raise IndexError end.

(** [for x in l: f(x)] collecting results, stopping at the first exception. *)
Fixpoint rmap {A B} (f : A → result B) (l : list A) : result (list B) :=
  match l with
  | [] => Ok []
  | x :: l' => rbind (f x) (λ y, rbind (rmap f l') (λ ys, Ok (y :: ys)))
  end.

(** [dict(pairs)]: later bindings win. *)
Definition dict_of {V} (pairs : list (string * V)) : gmap string V :=
  foldl (λ m kv, <[kv.1 := kv.2]> m) ∅ pairs.

(** ** Python strings *)

Fixpoint startswith (p s : string) : bool :=
  match p, s with
  | EmptyString, _ => true
  | String _ _, EmptyString => false
  | String a p', String b s' => if Ascii.eqb a b then startswith p' s' else false
  end.

(** [sub in s] *)
Fixpoint str_in (sub s : string) : bool :=
  startswith sub s ||
  match s with
  | EmptyString => false
  | String _ s' => str_in sub s'
  end.

(** [s.split(sep)] for a non-empty [sep]: [skip] counts the characters of a
    separator still to be passed over, [cur] is the piece being read. *)
Fixpoint split_from (sep : string) (skip : nat) (cur s : string) : list string :=
  match s with
  | EmptyString => [cur]
  | String c s' =>
      match skip with
      | S k => split_from sep k cur s'
      | O =>
          if startswith sep s
          then cur :: split_from sep (String.length sep - 1) "" s'
          else split_from sep 0 (cur +:+ String c "") s'
      end
  end.

Definition str_split (sep s : string) : list string := split_from sep 0 "" s.

(** [s.replace(old, new)] for a one-character [old]. *)
Fixpoint str_replace (old : ascii) (new s : string) : string :=
  match s with
  | EmptyString => EmptyString
  | String c s' =>
      if Ascii.eqb c old then new +:+ str_replace old new s'
      else String c (str_replace old new s')
  end.

(** [s[i:j]] and [s[i:]] for indices that are not negative. *)
Definition str_slice (i j : nat) (s : string) : string := substring i (j - i) s.

Fixpoint str_from (i : nat) (s : string) : string :=
  match i, s with
  | S i', String _ s' => str_from i' s'
  | _, _ => s
  end.

(** [l[-1]] of a list of strings that [split] returned (never empty). *)
Definition last_piece (l : list string) : string := List.last l "".

(** ** Integers read from text *)

Definition digit_of (c : ascii) : option Z :=
  let n := Z.of_nat (nat_of_ascii c) in
  if (48 <=? n)%Z && (n <=? 57)%Z then Some (n - 48)%Z else None.

Fixpoint int_of_digits (acc : Z) (s : string) : option Z :=
  match s with
  | EmptyString => Some acc
  | String c s' =>
      match digit_of c with
      | Some d => int_of_digits (10 * acc + d)%Z s'
      | None => None
      end
  end.

(** [np.uint8(s)] for a string of decimal digits: the number is read and
    kept modulo 2^8, the silent wrap-around of an 8-bit unsigned in the numpy
    that the code was written for (a four-digit year does not fit in 8 bits:
    2017 becomes 225, with the same remainder modulo 4). Text that is not a run
    of digits is a [ValueError]. *)
Definition np_uint8 (s : string) : result Z :=
  match s with
  | EmptyString => Raise ValueError
  | _ =>
      match int_of_digits 0 s with
      | Some n => Ok (n mod 256)%Z
      | None => Raise ValueError
      end
  end.

(** ** [datetime.datetime(y, m, d).timetuple().tm_yday]

    From Python's datetime module: the proleptic Gregorian calendar, years 1
    to 9999, [ValueError] for a date that does not exist. *)

Definition is_leap (y : Z) : bool :=
  ((y mod 4 =? 0) && (negb (y mod 100 =? 0) || (y mod 400 =? 0)))%Z.

Definition days_in_month (y m : Z) : Z :=
  match m with
  | 2 => if is_leap y then 29 else 28
  | 4 | 6 | 9 | 11 => 30
  | _ => 31
  end%Z.

Definition days_before_month (y m : Z) : Z :=
  foldr Z.add 0%Z (days_in_month y <$> (Z.of_nat <$> seq 1 (Z.to_nat (m - 1)))).

Definition tm_yday (y m d : Z) : result Z :=
  if ((1 <=? y) && (y <=? 9999) && (1 <=? m) && (m <=? 12)
      && (1 <=? d) && (d <=? days_in_month y m))%Z
  then Ok (days_before_month y m + d)%Z
  else Raise ValueError.

(** Lines 153-155: the day of the year of an 8-character calendar date. *)
Definition day_of_year (calendardate : string) : result Z :=
  rbind (np_uint8 (str_slice 0 4 calendardate)) (λ yr,
  rbind (np_uint8 (str_slice 4 6 calendardate)) (λ mo,
  rbind (np_uint8 (str_from 6 calendardate)) (λ day,
  tm_yday yr mo day))).

(** ** Floating-point values *)

Open Scope float_scope.

Definition np_nan : float := nan.
Definition np_pi : float := 3.141592653589793.

(** A Python [int] used in float arithmetic. *)
Definition float_of_Z (z : Z) : float :=
  if (z <? 0)%Z then - PrimFloat.of_uint63 (Uint63.of_Z (- z))
  else PrimFloat.of_uint63 (Uint63.of_Z z).

Definition float_of_nat (n : nat) : float := float_of_Z (Z.of_nat n).

(** ** Arrays and the heap of array objects *)

(** A numpy array: its shape and its elements in row-major (C) order. *)
Record ndarray : Type := { shape : list nat; data : list float }.

Definition arr_map (f : float → float) (a : ndarray) : ndarray :=
  {| shape := shape a; data := f <$> data a |}.

(** [np.ma.masked_equal(a, value).filled(fill)]: a new array in which the
    elements equal to [value] (IEEE equality) are replaced by [fill]. *)
Definition masked_equal_filled (a : ndarray) (value fill : float) : ndarray :=
  arr_map (λ x, if PrimFloat.eqb x value then fill else x) a.

(** The elements of a well-formed array fill its shape. *)
Definition wf_array (a : ndarray) : Prop :=
  length (data a) = foldr Nat.mul 1%nat (shape a).

(** [a[i, j, k]] of a 3-d array. *)
Definition get3 (a : ndarray) (i j k : nat) : option float :=
  match shape a with
  | [m; n; b] =>
      if decide (i < m ∧ j < n ∧ k < b)%nat
      then data a !! ((i * n + j) * b + k)%nat else None
  | _ => None
  end.

Abbreviation loc := positive.
Abbreviation heap := (gmap positive ndarray).

(** Computations on the heap that may raise: the heap is returned in both
    cases, since a Python exception does not undo earlier writes. *)
Definition M (A : Type) : Type := heap → result A * heap.

Definition ret {A} (a : A) : M A := λ h, (Ok a, h).
Definition raise {A} (e : exn) : M A := λ h, (Raise e, h).
Definition lift {A} (r : result A) : M A := λ h, (r, h).
Definition bind {A B} (m : M A) (k : A → M B) : M B :=
  λ h, match m h with
       | (Ok a, h') => k a h'
       | (Raise e, h') => (Raise e, h')
       end.

Declare Scope py_scope.
Delimit Scope py_scope with py.
Notation "x <- m ;; k" := (bind m (λ x, k))
  (at level 100, m at next level, right associativity) : py_scope.
Notation "m ;; k" := (bind m (λ _, k))
  (at level 100, right associativity) : py_scope.
Open Scope py_scope.

(** A new array object. *)
Definition alloc (a : ndarray) : M loc :=
  λ h, let l := fresh (dom h) in (Ok l, <[l := a]> h).

(** Reading through a reference; a location that holds no array stands for
    an argument that is not an array. *)
Definition load (l : loc) : M ndarray :=
  λ h, match h !! l with
       | Some a => (Ok a, h)
       | None => (Raise AttributeError, h)
       end.

Definition store (l : loc) (a : ndarray) : M unit :=
  λ h, (Ok tt, <[l := a]> h).

(** [a.copy()] *)
Definition np_copy (l : loc) : M loc := a <- load l ;; alloc a.

(** [np.expand_dims(a, 2).repeat(k, 2)] for a 2-d array [a] (the docstring's
    "destination: 2d array"): the view that [expand_dims] returns is only
    read, and [repeat] builds a new array of shape [m, n, k] in which every
    element of [a] stands [k] times. Below rank 2 numpy raises an AxisError (a
    ValueError); above rank 2 the docstring's contract is broken and the model
    stops with the same exception. *)
Definition expand_dims_repeat (k : nat) (l : loc) : M loc :=
  a <- load l ;;
  match shape a with
  | [m; n] => alloc {| shape := [m; n; k]; data := data a ≫= replicate k |}
  | _ => raise ValueError
  end.

(** The elements of [a] after [a[:, :, index] = value] where [a] has [b]
    bands: element [q] belongs to pixel [q / b] and band [q mod b]. *)
Definition assign_band (b index : nat) (value old : list float) : list float :=
  imap (λ q x, if decide (q mod b = index)%nat
               then default x (value !! (q / b)%nat) else x) old.

(** [a[:, :, index] = value]: IndexError when the band axis has no slot
    [index]; the value has the shape of a band (otherwise numpy cannot
    broadcast it: ValueError). *)
Definition setitem_band (l : loc) (index : nat) (value : ndarray) : M unit :=
  a <- load l ;;
  match shape a with
  | [m; n; b] =>
      if decide (index < b)%nat then
        if decide (shape value = [m; n]) then
          store l {| shape := shape a; data := assign_band b index (data value) (data a) |}
        else raise ValueError
      else raise IndexError
  | _ => raise IndexError
  end.

(** ** The calibration tables (lines 12-50) *)

Definition ucc : list (list float) :=
  [ [0.676;  1.688;    2.25;   np_nan];
    [0.708;  1.415;    1.89;   np_nan];
    [0.423;  0.862;    1.15;   np_nan];
    [0.423;  0.862;    1.15;   np_nan];
    [0.1087; 0.2174;   0.2900; 0.2900];
    [0.0348; 0.0696;   0.0925; 0.4090];
    [0.0313; 0.0625;   0.0830; 0.3900];
    [0.0299; 0.0597;   0.0795; 0.3320];
    [0.0209; 0.0417;   0.0556; 0.2450];
    [0.0159; 0.0318;   0.0424; 0.2650];
    [np_nan; 0.006822; np_nan; np_nan];
    [np_nan; 0.006780; np_nan; np_nan];
    [np_nan; 0.006590; np_nan; np_nan];
    [np_nan; 0.005693; np_nan; np_nan];
    [np_nan; 0.005225; np_nan; np_nan] ].

Definition ucc_header : list string := ["HGH"; "NOR"; "LG1"; "LG2"].

Definition band_index : list string :=
  ["1"; "2"; "3B"; "3N"; "4"; "5"; "6"; "7"; "8"; "9"; "10"; "11"; "12"; "13"; "14"].

(** [ucc_dataframe.transpose().to_dict()]: band, then gain. *)
Definition ucc_dict : gmap string (gmap string float) :=
  dict_of (zip band_index ((λ row, dict_of (zip ucc_header row)) <$> ucc)).

Definition res : list nat := replicate 4 15%nat ++ replicate 6 30%nat ++ replicate 5 90%nat.
Definition resolution_dict : gmap string nat := dict_of (zip band_index res).

Definition index_dict : gmap string nat := dict_of (zip band_index (seq 0 15)).

Definition irradiance_dict : gmap string float :=
  dict_of [ ("1", 1848.99); ("2", 1555.74); ("3N", 1119.47); ("4", 231.25);
            ("5", 79.81); ("6", 74.99); ("7", 68.66); ("8", 59.74); ("9", 56.92) ].

(** ** Affine transforms (the affine package, as rasterio uses it) *)

Record Affine : Type := { af_a : float; af_b : float; af_c : float;
                          af_d : float; af_e : float; af_f : float }.

Definition Affine_translation (xoff yoff : float) : Affine :=
  {| af_a := 1; af_b := 0; af_c := xoff; af_d := 0; af_e := 1; af_f := yoff |}.

Definition Affine_scale (sx sy : float) : Affine :=
  {| af_a := sx; af_b := 0; af_c := 0; af_d := 0; af_e := sy; af_f := 0 |}.

Definition Affine_mul (s o : Affine) : Affine :=
  {| af_a := af_a s * af_a o + af_b s * af_d o;
     af_b := af_a s * af_b o + af_b s * af_e o;
     af_c := af_a s * af_c o + af_b s * af_f o + af_c s;
     af_d := af_d s * af_a o + af_e s * af_d o;
     af_e := af_d s * af_b o + af_e s * af_e o;
     af_f := af_d s * af_c o + af_e s * af_f o + af_f s |}.

(** [rasterio.transform.from_bounds]: no check of the bounds is made; a
    division by a zero width or height gives an infinity or a NaN. *)
Definition from_bounds (west south east north : float) (width height : nat) : Affine :=
  Affine_mul (Affine_translation west north)
             (Affine_scale ((east - west) / float_of_nat width)
                           ((south - north) / float_of_nat height)).

(** ** The platform: gdal, rasterio and numpy primitives *)

(** What [gdal.Open] gives for a file: the sub-datasets as (name,
    description) pairs and the metadata, as a dict and as a list of
    KEY=VALUE lines. *)
Record Dataset : Type := {
  GetSubDatasets : list (string * string);
  GetMetadata : gmap string string;
  GetMetadata_List : list string
}.

Inductive Resampling : Type :=
| nearest | bilinear | cubic | cubic_spline | lanczos | average | mode.

(** A coordinate reference system, by its name. *)
Definition CRS : Type := string.

Class Platform : Type := {
  (** [gdal.Open(path)]: [None] when the file cannot be opened *)
  gdal_Open : string → option Dataset;
  (** [rasterio.open(name).read(1)]: the first band of a sub-dataset, whose
      shape is [src.shape] *)
  rasterio_read : string → result ndarray;
  (** [rasterio.warp.reproject(source, dst, ...)]: the value written at each
      position of the buffer of [dst], given [dst] as it was *)
  reproject : ndarray → ndarray → Affine → CRS → Affine → CRS → Resampling →
              result (nat → float);
  (** text to a float32 and to a float64 element of an array *)
  np_float32 : string → result float;
  np_float64 : string → result float;
  (** [np.radians] and [np.cos] on float64 scalars *)
  np_radians : float → float;
  np_cos : float → float;
  (** [np.deg2rad] and [np.sin] on float32 scalars *)
  np_deg2rad : float → float;
  np_sin : float → float;
  (** [x ** y] on float64 scalars *)
  np_power : float → float → float
}.

(** ** The conversion (lines 52-205) *)

Section Process.
Context `{Platform}.

(** The array [a] once each position [q] of its buffer holds [f q]. *)
Definition fill_buffer (a : ndarray) (f : nat → float) : ndarray :=
  {| shape := shape a; data := imap (λ q _, f q) (data a) |}.

(** [reproject(source, dst, ...)] writes into the buffer of [dst]. *)
Definition reproject_into (source : ndarray) (dst : loc)
    (src_transform : Affine) (src_crs : CRS)
    (dst_transform : Affine) (dst_crs : CRS) (resampling : Resampling) : M unit :=
  a <- load dst ;;
  f <- lift (reproject source a src_transform src_crs dst_transform dst_crs resampling) ;;
  store dst (fill_buffer a f).

(** Line 147: the gain of each band, from the metadata lines that mention
    GAIN. *)
Definition gain_entries (metadata_list : list string) : result (list (list string)) :=
  rmap (λ g, rbind (getidx (str_split "=" (str_replace "0" "" g)) 1)
                   (λ v, Ok (str_split ", " v)))
       (List.filter (str_in "GAIN") metadata_list).

(** [dict(l)] for a list of lists: each must have two elements. *)
Definition dict_of_lists (l : list (list string)) : result (gmap string string) :=
  rbind (rmap (λ e, match e with [k; v] => Ok (k, v) | _ => Raise ValueError end) l)
        (λ pairs, Ok (dict_of pairs)).

(** Lines 147-148. *)
Definition make_gain_dict (metadata_list : list string) : result (gmap string string) :=
  rbind (gain_entries metadata_list) (λ entries,
  rbind (dict_of_lists entries) (λ gain_dict,
  Ok (foldl (λ g b, <[b := "NOR"]> g) gain_dict ["10"; "11"; "12"; "13"; "14"]))).

(** Line 157. *)
Definition earth_sun_distance (doy : Z) : float :=
  1 - 0.01672 * np_cos (np_radians (0.9856 * float_of_Z (doy - 4))).

(** Lines 190-191 on one pixel. *)
Definition radiance_pixel (coefficient x : float) : float :=
  ((if PrimFloat.eqb x 0 then np_nan else x) - 1) * coefficient.

(** Lines 190-191 on the reprojected array. *)
Definition radiance (coefficient : float) (dst : ndarray) : ndarray :=
  arr_map (λ x, (x - 1) * coefficient) (masked_equal_filled dst 0 np_nan).

(** Line 201 on one pixel: [d] is the Earth-Sun distance of the scene,
    [elevation] is [solar_direction[1]]. *)
Definition reflectance_pixel (d irradiance elevation x : float) : float :=
  (np_pi * x * np_power d 2) / (irradiance * np_sin (np_deg2rad elevation)).

(** Line 163: the band of a raster, the text after the last "ImageData" of
    its name. *)
Definition band_of (raster : string) : string :=
  last_piece (str_split "ImageData" raster).

(** Line 176: the transform of the source grid, from the corners of the
    scene ([ul] and [lr] hold longitude, then latitude) and the shape of the
    raster. *)
Definition source_transform (ul lr : list float) (src_shape : list nat) : result Affine :=
  rbind (getidx ul 0) (λ west,
  rbind (getidx lr 1) (λ south,
  rbind (getidx lr 0) (λ east,
  rbind (getidx ul 1) (λ north,
  rbind (getidx src_shape 1) (λ width,
  rbind (getidx src_shape 0) (λ height,
  Ok (from_bounds west south east north width height))))))).

(** Line 191: [ucc_dict[band_str][gain]]. *)
Definition coefficient_of (band_str gain : string) : result float :=
  rbind (getitem ucc_dict band_str) (λ coefficients, getitem coefficients gain).

(** The body of the loop over the rasters (lines 163-203). *)
Definition process_band (destination aster_array : loc)
    (dst_transform : Affine) (dst_crs : CRS) (resampling : Resampling)
    (return_radiance : bool)
    (solar_direction : list float) (gain_dict : gmap string string)
    (ul lr : list float) (d : float) (raster : string) : M unit :=
  let band_str := band_of raster in
  index <- lift (getitem index_dict band_str) ;;
  gain <- lift (getitem gain_dict band_str) ;;
  source <- lift (rasterio_read raster) ;;
  let src_crs : CRS := "epsg:4326" in
  src_transform <- lift (source_transform ul lr (shape source)) ;;
  dst <- np_copy destination ;;
  reproject_into source dst src_transform src_crs dst_transform dst_crs resampling ;;
  reprojected <- load dst ;;
  coefficient <- lift (coefficient_of band_str gain) ;;
  let dst' := radiance coefficient reprojected in
  if return_radiance then
    setitem_band aster_array index dst'
  else if bool_decide (band_str ∈ take 10 band_index) then
    irradiance <- lift (getitem irradiance_dict band_str) ;;
    elevation <- lift (getidx solar_direction 1) ;;
    setitem_band aster_array index
      (arr_map (reflectance_pixel d irradiance elevation) dst')
  else ret tt.

(** The loop of line 161. *)
Fixpoint process_bands (destination aster_array : loc)
    (dst_transform : Affine) (dst_crs : CRS) (resampling : Resampling)
    (return_radiance : bool)
    (solar_direction : list float) (gain_dict : gmap string string)
    (ul lr : list float) (d : float) (raster_list : list string) : M unit :=
  match raster_list with
  | [] => ret tt
  | raster :: rest =>
      process_band destination aster_array dst_transform dst_crs resampling
        return_radiance solar_direction gain_dict ul lr d raster ;;
      process_bands destination aster_array dst_transform dst_crs resampling
        return_radiance solar_direction gain_dict ul lr d rest
  end.

(** The scene constants read from the metadata (lines 146-157). *)
Record SceneConstants : Type := {
  sc_solar_direction : list float;
  sc_gain_dict : gmap string string;
  sc_ul : list float;
  sc_lr : list float;
  sc_doy : Z
}.

Definition scene_constants (aster : Dataset) : result SceneConstants :=
  rbind (getitem (GetMetadata aster) "SOLARDIRECTION") (λ sd,
  rbind (rmap np_float32 (str_split ", " sd)) (λ solar_direction,
  rbind (make_gain_dict (GetMetadata_List aster)) (λ gain_dict,
  rbind (getitem (GetMetadata aster) "UPPERLEFT") (λ uls,
  rbind (rmap np_float64 (reverse (str_split ", " uls))) (λ ul,
  rbind (getitem (GetMetadata aster) "LOWERRIGHT") (λ lrs,
  rbind (rmap np_float64 (reverse (str_split ", " lrs))) (λ lr,
  rbind (getitem (GetMetadata aster) "CALENDARDATE") (λ calendardate,
  rbind (day_of_year calendardate) (λ doy,
  Ok {| sc_solar_direction := solar_direction; sc_gain_dict := gain_dict;
        sc_ul := ul; sc_lr := lr; sc_doy := doy |}))))))))).

(** Line 159. *)
Definition raster_list_of (aster_sds : list (string * string)) : list string :=
  List.filter (str_in "ImageData") (fst <$> aster_sds).

(** [process_aster_dataset]. The messages printed for each band and the
    unused projection object of line 144 are left out. *)
Definition process_aster_dataset (aster_file : string) (destination : loc)
    (dst_transform : Affine) (dst_crs : CRS) (resampling : Resampling)
    (return_radiance : bool) : M loc :=
  aster <- lift (match gdal_Open aster_file with
                 | Some aster => Ok aster
                 | None => Raise AttributeError
                 end) ;;
  let aster_sds := GetSubDatasets aster in
  repeated <- expand_dims_repeat (if return_radiance then 15 else 10)%nat destination ;;
  aster_array <- np_copy repeated ;;
  sc <- lift (scene_constants aster) ;;
  let d := earth_sun_distance (sc_doy sc) in
  process_bands destination aster_array dst_transform dst_crs resampling
    return_radiance (sc_solar_direction sc) (sc_gain_dict sc)
    (sc_ul sc) (sc_lr sc) d (raster_list_of aster_sds) ;;
  ret aster_array.

End Process.

(** * The vocabulary of the properties *)

(** [wp m h Q]: running [m] in the heap [h] ends with a result and a heap
    that satisfy [Q]. *)
Definition wp {A} (m : M A) (h : heap) (Q : result A → heap → Prop) : Prop :=
  Q (m h).1 (m h).2.

(** How a heap may change while bands are processed.
    [evolves aster W h h']: from [h] to [h'], no array other than the one at
    [aster] has changed, arrays may have been created, and the array at
    [aster] has kept its shape and every band slot outside [W]. *)

Definition evolves (aster : loc) (W : nat → Prop) (h h' : heap) : Prop :=
  (∀ l, is_Some (h !! l) → l ≠ aster → h' !! l = h !! l) ∧
  (∀ arr, h !! aster = Some arr →
     ∃ arr', h' !! aster = Some arr' ∧ shape arr' = shape arr ∧
             length (data arr') = length (data arr) ∧
             ∀ i j k, ¬ W k → get3 arr' i j k = get3 arr i j k).

(** What the step of a band writes at each pixel of its slot, as a function
    [g] of the reprojected value: the radiance in radiance mode; in
    reflectance mode the reflectance, for a band among the first ten that has
    an irradiance and when the solar direction has an elevation. *)
Definition writes_pixel `{Platform} (return_radiance : bool) (d : float)
    (solar_direction : list float) (band_str : string) (c : float)
    (g : float → float) : Prop :=
  if return_radiance then g = radiance_pixel c
  else band_str ∈ take 10 band_index ∧
       ∃ irradiance elevation,
         irradiance_dict !! band_str = Some irradiance ∧
         solar_direction !! 1%nat = Some elevation ∧
         g = (λ x, reflectance_pixel d irradiance elevation (radiance_pixel c x)).

(** The lookups of the step of a raster succeed, its reprojection too, and
    in reflectance mode a band among the first ten has an irradiance and
    the solar direction an elevation. *)
Definition band_ready `{Platform} (dst_transform : Affine) (dst_crs : CRS)
    (resampling : Resampling) (return_radiance : bool)
    (solar_direction : list float) (gain_dict : gmap string string)
    (ul lr : list float) (a : ndarray) (raster : string) : Prop :=
  ∃ index gain source t f c,
    index_dict !! band_of raster = Some index ∧
    gain_dict !! band_of raster = Some gain ∧
    rasterio_read raster = Ok source ∧
    source_transform ul lr (shape source) = Ok t ∧
    reproject source a t "epsg:4326" dst_transform dst_crs resampling = Ok f ∧
    coefficient_of (band_of raster) gain = Ok c ∧
    (return_radiance = true ∨ band_of raster ∉ take 10 band_index ∨
     (is_Some (irradiance_dict !! band_of raster) ∧
      is_Some (solar_direction !! 1%nat))).

(** What the loop keeps true of the heap: the destination [a] and an output
    array of its rows and columns. *)
Definition loop_invariant (destination aster_array : loc)
    (return_radiance : bool) (a : ndarray) (m n : nat) (h : heap) : Prop :=
  h !! destination = Some a ∧
  ∃ arr, h !! aster_array = Some arr ∧
         shape arr = [m; n; if return_radiance then 15 else 10]%nat ∧
         length (data arr) = (m * n * if return_radiance then 15 else 10)%nat.

(** * A small platform, to run the conversion

    Scenes of two by two pixels whose rasters lie on the destination grid:
    the reprojection copies the source values where the source has them, and
    refuses a source transform that cannot be inverted, as rasterio does.
    Numbers in the metadata are plain decimals; the sine and the cosine are
    polynomials, enough for runs whose values are only compared with the
    formulas of the conversion. *)

Module Demo.

(** Decimal text: an optional minus, digits, an optional point and digits. *)
Definition decimal (s : string) : result float :=
  let '(negative, s) :=
    match s with String "-" s' => (true, s') | _ => (false, s) end in
  let sign (x : float) := if negative : bool then - x else x in
  match s, str_split "." s with
  | String _ _, [whole] =>
      match int_of_digits 0 whole with
      | Some k => Ok (sign (float_of_Z k))
      | None => Raise ValueError
      end
  | String _ _, [whole; fraction] =>
      match int_of_digits 0 (whole +:+ fraction) with
      | Some k =>
          Ok (sign (float_of_Z k /
                    float_of_Z (10 ^ Z.of_nat (String.length fraction))))
      | None => Raise ValueError
      end
  | _, _ => Raise ValueError
  end.

Definition radians (x : float) : float := x * (np_pi / 180).

Definition cosine (x : float) : float :=
  let x2 := x * x in
  1 - x2 / 2 * (1 - x2 / 12 * (1 - x2 / 30 * (1 - x2 / 56))).

Definition sine (x : float) : float :=
  let x2 := x * x in
  x * (1 - x2 / 6 * (1 - x2 / 20 * (1 - x2 / 42 * (1 - x2 / 72)))).

(** The name of the sub-dataset of a band. *)
Definition raster_name (band : string) : string :=
  "HDF4_EOS:EOS_SWATH:scene.hdf:Swath:ImageData" +:+ band.

(** A scene: the bands of its rasters in order, the GAIN lines of its
    metadata, and its corners as "latitude, longitude". *)
Definition scene_of (bands : list string) (gains : list string)
    (upperleft lowerright : string) : Dataset :=
  {| GetSubDatasets :=
       ((λ b, (raster_name b, "ImageData" +:+ b)) <$> bands) ++
       [ ("HDF4_EOS:EOS_SWATH:scene.hdf:Swath:Latitude", "Latitude") ];
     GetMetadata :=
       dict_of [ ("SOLARDIRECTION", "150.5, 60.0"); ("UPPERLEFT", upperleft);
                 ("LOWERRIGHT", lowerright); ("CALENDARDATE", "20170615") ];
     GetMetadata_List :=
       [ "CALENDARDATE=20170615"; "SOLARDIRECTION=150.5, 60.0" ] ++ gains |}.

Definition usual_gains : list string :=
  [ "GAIN.1=01, HGH"; "GAIN.2=02, NOR"; "GAIN.3=3N, NOR"; "GAIN.4=3B, NOR" ].

Definition low_gains : list string :=
  [ "GAIN.1=01, LG2"; "GAIN.2=02, NOR"; "GAIN.3=3N, NOR"; "GAIN.4=3B, LG2" ].

(** Bands 1 and 10. *)
Definition scene : Dataset :=
  scene_of ["1"; "10"] usual_gains "-20.0, -50.5" "-20.5, -50.0".

(** Bands 1, 3B and 2. *)
Definition scene_3B : Dataset :=
  scene_of ["1"; "3B"; "2"] usual_gains "-20.0, -50.5" "-20.5, -50.0".

(** Bands 1, 3B and 2, bands 1 and 3B at the gain LG2, for which they have no
    coefficient. *)
Definition scene_low_gain : Dataset :=
  scene_of ["1"; "3B"; "2"] low_gains "-20.0, -50.5" "-20.5, -50.0".

(** Band 1, with the corners exchanged: the upper-left corner lies south
    and east of the lower-right one. *)
Definition scene_swapped : Dataset :=
  scene_of ["1"] usual_gains "-20.5, -50.0" "-20.0, -50.5".

(** Bands 1 and 2, band 1 at the gain LG2, for which it has no
    coefficient. *)
Definition scene_undefined : Dataset :=
  scene_of ["1"; "2"] low_gains "-20.0, -50.5" "-20.5, -50.0".

Definition open_file (path : string) : option Dataset :=
  if String.eqb path "scene.hdf" then Some scene
  else if String.eqb path "scene_3B.hdf" then Some scene_3B
  else if String.eqb path "scene_low_gain.hdf" then Some scene_low_gain
  else if String.eqb path "scene_swapped.hdf" then Some scene_swapped
  else if String.eqb path "scene_undefined.hdf" then Some scene_undefined
  else None.

Definition band_1 : ndarray := {| shape := [2; 2]%nat; data := [101; 0; 56; 255] |}.
Definition band_2 : ndarray := {| shape := [2; 2]%nat; data := [12; 13; 0; 15] |}.
Definition band_3B : ndarray := {| shape := [2; 2]%nat; data := [31; 32; 33; 34] |}.
Definition band_10 : ndarray := {| shape := [1; 1]%nat; data := [1200] |}.

Definition read (name : string) : result ndarray :=
  let band := band_of name in
  if String.eqb band "1" then Ok band_1
  else if String.eqb band "2" then Ok band_2
  else if String.eqb band "3B" then Ok band_3B
  else if String.eqb band "10" then Ok band_10
  else Raise (ExternalError "RasterioIOError").

(** The source value at each position where there is one, 0 elsewhere. *)
Definition copy_pixels (source : ndarray) : nat → float :=
  λ q, default 0 (data source !! q).

(** A transform can be inverted when its determinant is a number other
    than zero. *)
Definition invertible (t : Affine) : bool :=
  let det := af_a t * af_e t - af_b t * af_d t in
  negb (PrimFloat.eqb det 0) && PrimFloat.eqb det det.

(** The reprojection of a source whose grid is that of the destination. *)
Definition warp (source : ndarray) (src_transform : Affine) : result (nat → float) :=
  if invertible src_transform then Ok (copy_pixels source)
  else Raise (ExternalError "Cannot invert geotransform").

Definition platform : Platform :=
  {| gdal_Open := open_file;
     rasterio_read := read;
     reproject := λ source _ src_transform _ _ _ _, warp source src_transform;
     np_float32 := decimal;
     np_float64 := decimal;
     np_radians := radians;
     np_cos := cosine;
     np_deg2rad := radians;
     np_sin := sine;
     np_power := λ x y, if PrimFloat.eqb y 2 then x * x else np_nan |}.

(** The destination: two by two pixels holding the fill value -9999. *)
Definition destination : loc := 1%positive.
Definition fill : ndarray :=
  {| shape := [2; 2]%nat; data := [-9999; -9999; -9999; -9999] |}.
Definition heap0 : heap := {[ destination := fill ]}.
Definition grid : Affine := from_bounds (-50.5) (-20.5) (-50) (-20) 2 2.

Definition convert (path : string) (return_radiance : bool) : result loc * heap :=
  @process_aster_dataset platform path destination grid "epsg:32722" nearest
    return_radiance heap0.

(** The constants that the conversion reads from the metadata of a scene. *)
Definition no_constants : SceneConstants :=
  {| sc_solar_direction := []; sc_gain_dict := ∅; sc_ul := []; sc_lr := [];
     sc_doy := 0 |}.

Definition constants (aster : Dataset) : SceneConstants :=
  match @scene_constants platform aster with
  | Ok sc => sc
  | Raise _ => no_constants
  end.

(** The returned array, when the conversion returns one. *)
Definition output (path : string) (return_radiance : bool) : option ndarray :=
  match convert path return_radiance with
  | (Ok out, h) => h !! out
  | (Raise _, _) => None
  end.

End Demo.

(** ** More vocabulary *)

(** [a[i, j]] of a 2-d array. *)
Definition get2 (a : ndarray) (i j : nat) : option float :=
  match shape a with
  | [m; n] => if decide (i < m ∧ j < n)%nat then data a !! (i * n + j)%nat else None
  | _ => None
  end.

(** The text of a date as the metadata has it: four digits of year, two of
    month, two of day. *)
Definition digit_char (d : Z) : ascii := ascii_of_nat (48 + Z.to_nat d).

Definition digits2 (k : Z) : string :=
  String (digit_char (k / 10)) (String (digit_char (k mod 10)) "").

Definition digits4 (k : Z) : string := digits2 (k / 100) +:+ digits2 (k mod 100).

Definition date_text (y m d : Z) : string := digits4 y +:+ digits2 m +:+ digits2 d.

(** The lines of the metadata: a line that gives the gain of a band, as
    "GAIN.1=01, HGH", or any other line. *)
Inductive metadata_line : Type :=
| GainLine (key label gain : string)
| OtherLine (text : string).

Definition line_text (l : metadata_line) : string :=
  match l with
  | GainLine key label gain => key +:+ ("=" +:+ (label +:+ (", " +:+ gain)))
  | OtherLine text => text
  end.

(** A gain line mentions GAIN, has its only "=" after the key and its only
    comma between the label and the gain; another line does not mention
    GAIN. *)
Definition well_formed_line (l : metadata_line) : Prop :=
  match l with
  | GainLine key label gain =>
      str_in "GAIN" (line_text l) = true ∧
      str_in "=" key = false ∧ str_in "=" label = false ∧
      str_in "=" gain = false ∧
      str_in "," label = false ∧ str_in "," gain = false
  | OtherLine text => str_in "GAIN" text = false
  end.

(** What the lines say: for each gain line the label and the gain, without
    their zeros. *)
Definition gains_of (ls : list metadata_line) : list (string * string) :=
  ls ≫= λ l, match l with
             | GainLine _ label gain =>
                 [(str_replace "0" "" label, str_replace "0" "" gain)]
             | OtherLine _ => []
             end.

(** More scenes, each served by a platform that opens it under any name. *)
Module Cases.

Definition platform_of (aster : Dataset) : Platform :=
  {| gdal_Open := λ _, Some aster;
     rasterio_read := Demo.read;
     reproject := λ source _ src_transform _ _ _ _, Demo.warp source src_transform;
     np_float32 := Demo.decimal;
     np_float64 := Demo.decimal;
     np_radians := Demo.radians;
     np_cos := Demo.cosine;
     np_deg2rad := Demo.radians;
     np_sin := Demo.sine;
     np_power := λ x y, if PrimFloat.eqb y 2 then x * x else np_nan |}.

Definition convert (aster : Dataset) (return_radiance : bool) : result loc * heap :=
  @process_aster_dataset (platform_of aster) "scene.hdf" Demo.destination
    Demo.grid "epsg:32722" nearest return_radiance Demo.heap0.

Definition constants (aster : Dataset) : SceneConstants :=
  match @scene_constants (platform_of aster) aster with
  | Ok sc => sc
  | Raise _ => Demo.no_constants
  end.

(** Band 1, then a raster whose name ends in a band that is not in the
    tables, then band 2. *)
Definition unknown_band : Dataset :=
  Demo.scene_of ["1"; "15"; "2"] Demo.usual_gains "-20.0, -50.5" "-20.5, -50.0".

(** Bands 1 and 2, the metadata having no GAIN line for band 2. *)
Definition missing_gain : Dataset :=
  Demo.scene_of ["1"; "2"] ["GAIN.1=01, HGH"] "-20.0, -50.5" "-20.5, -50.0".

(** Bands 1 and 2, band 2 at a gain that the table does not have. *)
Definition unknown_gain : Dataset :=
  Demo.scene_of ["1"; "2"] ["GAIN.1=01, HGH"; "GAIN.2=02, LOW"]
    "-20.0, -50.5" "-20.5, -50.0".

(** Bands 2, 10 and 1, and the same rasters in another order. *)
Definition three_bands : Dataset :=
  Demo.scene_of ["2"; "10"; "1"] Demo.usual_gains "-20.0, -50.5" "-20.5, -50.0".

Definition three_bands_reordered : Dataset :=
  Demo.scene_of ["1"; "2"; "10"] Demo.usual_gains "-20.0, -50.5" "-20.5, -50.0".

(** A platform that opens [three_bands_reordered] under the name
    "reordered.hdf" and [three_bands] under any other name. *)
Definition two_files : Platform :=
  {| gdal_Open := λ path, Some (if String.eqb path "reordered.hdf"
                                then three_bands_reordered else three_bands);
     rasterio_read := Demo.read;
     reproject := λ source _ src_transform _ _ _ _, Demo.warp source src_transform;
     np_float32 := Demo.decimal;
     np_float64 := Demo.decimal;
     np_radians := Demo.radians;
     np_cos := Demo.cosine;
     np_deg2rad := Demo.radians;
     np_sin := Demo.sine;
     np_power := λ x y, if PrimFloat.eqb y 2 then x * x else np_nan |}.

End Cases.

(** * Properties *)

(** ** Reasoning about heap computations *)

Lemma wp_run {A} (m : M A) h Q r h' : wp m h Q → m h = (r, h') → Q r h'.
Proof. unfold wp. intros HQ E. by rewrite E in HQ. Qed.

Lemma wp_mono {A} (m : M A) h (Q Q' : result A → heap → Prop) :
  wp m h Q → (∀ r h', Q r h' → Q' r h') → wp m h Q'.
Proof. unfold wp. auto. Qed.

Lemma wp_bind {A B} (m : M A) (k : A → M B) h Q :
  wp m h (λ r h', match r with
                  | Ok a => wp (k a) h' Q
                  | Raise e => Q (Raise e) h'
                  end) →
  wp (bind m k) h Q.
Proof. unfold wp, bind. by destruct (m h) as [[a|e] h']. Qed.

Lemma wp_ret {A} (a : A) h Q : Q (Ok a) h → wp (ret a) h Q.
Proof. done. Qed.

Lemma wp_raise {A} e h (Q : result A → heap → Prop) : Q (Raise e) h → wp (raise e) h Q.
Proof. done. Qed.

Lemma wp_lift {A} (r : result A) h Q : Q r h → wp (lift r) h Q.
Proof. done. Qed.

Lemma wp_alloc a h Q :
  Q (Ok (fresh (dom h))) (<[fresh (dom h) := a]> h) → wp (alloc a) h Q.
Proof. done. Qed.

Lemma wp_load l h Q :
  match h !! l with
  | Some a => Q (Ok a) h
  | None => Q (Raise AttributeError) h
  end → wp (load l) h Q.
Proof. unfold wp, load. by destruct (h !! l). Qed.

Lemma wp_store l a h Q : Q (Ok tt) (<[l := a]> h) → wp (store l a) h Q.
Proof. done. Qed.

Lemma fresh_lookup (h : heap) : h !! fresh (dom h) = None.
Proof. apply not_elem_of_dom, is_fresh. Qed.

Lemma fresh_ne (h : heap) l : is_Some (h !! l) → l ≠ fresh (dom h).
Proof. intros [a Ha] ->. by rewrite fresh_lookup in Ha. Qed.

(** ** Arrays *)

Lemma lookup_bind_replicate {A} (l : list A) (k p j : nat) :
  (j < k)%nat → (l ≫= replicate k) !! (p * k + j)%nat = l !! p.
Proof.
  intros Hj. revert p. induction l as [|x l IH]; intros p.
  - done.
  - rewrite bind_cons. destruct p as [|p]; simpl.
    + rewrite lookup_app_l by (rewrite length_replicate; lia).
      by apply lookup_replicate_2.
    + rewrite lookup_app_r by (rewrite length_replicate; lia).
      rewrite length_replicate.
      replace (k + p * k + j - k)%nat with (p * k + j)%nat by lia. apply IH.
Qed.

Lemma length_bind_replicate {A} (l : list A) (k : nat) :
  length (l ≫= replicate k) = (length l * k)%nat.
Proof.
  induction l as [|x l IH]; [done|].
  rewrite bind_cons, length_app, length_replicate, IH. simpl. lia.
Qed.

Lemma length_assign_band b index value old :
  length (assign_band b index value old) = length old.
Proof. apply length_imap. Qed.

Lemma lookup_assign_band_eq b index value old p x :
  (index < b)%nat → (p * b + index < length old)%nat → value !! p = Some x →
  assign_band b index value old !! (p * b + index)%nat = Some x.
Proof.
  intros Hi Hlen Hv. unfold assign_band. rewrite list_lookup_imap.
  destruct (lookup_lt_is_Some_2 old (p * b + index)) as [y Hy]; [done|].
  rewrite Hy. simpl.
  replace ((p * b + index) mod b)%nat with index
    by (rewrite Nat.add_comm, Nat.Div0.mod_add; symmetry; by apply Nat.mod_small).
  replace ((p * b + index) / b)%nat with p
    by (rewrite Nat.add_comm, Nat.div_add by lia; rewrite Nat.div_small; lia).
  rewrite decide_True by done. by rewrite Hv.
Qed.

Lemma lookup_assign_band_ne b index value old p k :
  (k < b)%nat → k ≠ index →
  assign_band b index value old !! (p * b + k)%nat = old !! (p * b + k)%nat.
Proof.
  intros Hk Hne. unfold assign_band. rewrite list_lookup_imap.
  destruct (old !! (p * b + k)%nat) as [y|]; [|done]. simpl.
  replace ((p * b + k) mod b)%nat with k
    by (rewrite Nat.add_comm, Nat.Div0.mod_add; symmetry; by apply Nat.mod_small).
  by rewrite decide_False.
Qed.

Ltac wp_head :=
  lazymatch goal with
  | |- wp (lift ?r) _ _ => apply wp_lift; destruct r eqn:?
  | |- wp (load ?l) ?h _ => apply wp_load; destruct (h !! l) eqn:?
  | |- wp (alloc _) _ _ => apply wp_alloc
  | |- wp (store _ _) _ _ => apply wp_store
  | |- wp (ret _) _ _ => apply wp_ret
  | |- wp (raise _) _ _ => apply wp_raise
  end.

Ltac wp_step :=
  lazymatch goal with
  | |- wp (bind _ _) _ _ => apply wp_bind; wp_head
  | |- _ => wp_head
  end; cbv beta iota.

Lemma evolves_refl aster W h : evolves aster W h h.
Proof. split; [done|]. intros arr Harr. by exists arr. Qed.

Lemma evolves_trans aster W h1 h2 h3 :
  evolves aster W h1 h2 → evolves aster W h2 h3 → evolves aster W h1 h3.
Proof.
  intros [F1 A1] [F2 A2]. split.
  - intros l Hl Hne. rewrite <- (F1 l Hl Hne). apply F2; [|done].
    by rewrite (F1 l Hl Hne).
  - intros arr Harr. destruct (A1 arr Harr) as (arr1 & H1 & S1 & L1 & G1).
    destruct (A2 arr1 H1) as (arr2 & H2 & S2 & L2 & G2).
    exists arr2. repeat split; [done|congruence|congruence|].
    intros i j k Hk. rewrite G2, G1; done.
Qed.

Lemma evolves_mono aster (W W' : nat → Prop) h h' :
  (∀ k, W k → W' k) → evolves aster W h h' → evolves aster W' h h'.
Proof.
  intros HW [F A]. split; [done|]. intros arr Harr.
  destruct (A arr Harr) as (arr' & ? & ? & ? & G). exists arr'.
  repeat split; try done. intros i j k Hk. apply G. naive_solver.
Qed.

(** Creating an array, or writing to one created since [h]. *)
Lemma evolves_insert_new aster W (h : heap) l x :
  h !! l = None → evolves aster W h (<[l := x]> h).
Proof.
  intros Hl. split.
  - intros l' [y Hy] _. apply lookup_insert_ne. congruence.
  - intros arr Harr. exists arr. rewrite lookup_insert_ne by congruence. done.
Qed.

(** [a[:, :, index] = value] on the array at [aster]. *)
Lemma evolves_assign aster (h : heap) arr m n b index value :
  h !! aster = Some arr → shape arr = [m; n; b] →
  evolves aster (λ k, k = index) h
    (<[aster := {| shape := shape arr;
                   data := assign_band b index value (data arr) |}]> h).
Proof.
  intros Harr Hshape. split.
  - intros l _ Hne. by apply lookup_insert_ne.
  - intros arr0 Harr0. assert (arr0 = arr) as -> by congruence.
    eexists. rewrite lookup_insert_eq. split; [done|]. simpl.
    split; [done|]. split; [apply length_assign_band|].
    intros i j k Hk. unfold get3. simpl. rewrite Hshape.
    case_decide as Hin; [|done].
    apply lookup_assign_band_ne; [lia|done].
Qed.

Lemma wp_setitem_band aster index value h arr :
  h !! aster = Some arr →
  wp (setitem_band aster index value) h
     (λ _ h', evolves aster (λ k, k = index) h h').
Proof.
  intros Harr. unfold setitem_band. apply wp_bind, wp_load. rewrite Harr.
  destruct (shape arr) as [|m [|n [|b [|]]]] eqn:Hshape;
    try (apply wp_raise, evolves_refl).
  case_decide; [|apply wp_raise, evolves_refl].
  case_decide; [|apply wp_raise, evolves_refl].
  apply wp_store. rewrite <- Hshape at 1. by eapply evolves_assign.
Qed.

Section BandStep.
Context `{Platform}.
Variables (destination aster_array : loc).
Variables (dst_transform : Affine) (dst_crs : CRS) (resampling : Resampling).
Variables (return_radiance : bool).
Variables (solar_direction : list float) (gain_dict : gmap string string).
Variables (ul lr : list float) (d : float).

Local Abbreviation band_step :=
  (process_band destination aster_array dst_transform dst_crs resampling
     return_radiance solar_direction gain_dict ul lr d).
Local Abbreviation band_loop :=
  (process_bands destination aster_array dst_transform dst_crs resampling
     return_radiance solar_direction gain_dict ul lr d).

(** Whatever its outcome, the step of one raster changes nothing but the
    slot of its band in the output array. *)
Lemma process_band_evolves raster h :
  is_Some (h !! aster_array) →
  wp (band_step raster) h
     (λ _ h', evolves aster_array (λ k, index_dict !! band_of raster = Some k) h h').
Proof.
  intros [arr Harr]. unfold process_band.
  set (W := λ k, index_dict !! band_of raster = Some k).
  assert (∀ x, evolves aster_array W h (<[fresh (dom h) := x]> h)) as E
    by (intros; apply evolves_insert_new, fresh_lookup).
  assert (∀ x, <[fresh (dom h) := x]> h !! aster_array = Some arr) as Harr'.
  { intros x. rewrite lookup_insert_ne; [done|].
    intros Heq. pose proof (fresh_lookup h). congruence. }
  wp_step; [|apply evolves_refl].
  assert (∀ x v, wp (setitem_band aster_array a v) (<[fresh (dom h) := x]> h)
            (λ _ h', evolves aster_array W h h')) as Hset.
  { intros x v. eapply wp_mono; [by eapply wp_setitem_band|].
    intros r h' E3. cbv beta in E3. eapply evolves_trans; [apply (E x)|].
    eapply evolves_mono; [|exact E3]. intros k Hk. unfold W. rewrite Hk.
    unfold getitem in *. destruct (index_dict !! band_of raster); congruence. }
  wp_step; [|apply evolves_refl].
  wp_step; [|apply evolves_refl].
  wp_step; [|apply evolves_refl].
  unfold np_copy. apply wp_bind. wp_step; [|apply evolves_refl].
  wp_step. unfold reproject_into. apply wp_bind.
  apply wp_bind, wp_load. rewrite lookup_insert_eq.
  wp_step; [|apply E].
  wp_step. rewrite insert_insert_eq.
  apply wp_bind, wp_load. rewrite lookup_insert_eq.
  wp_step; [|apply E].
  destruct return_radiance; [apply Hset|].
  case_bool_decide; [|apply wp_ret, E].
  wp_step; [|apply E]. wp_step; [|apply E]. apply Hset.
Qed.

Lemma process_bands_evolves rasters h :
  is_Some (h !! aster_array) →
  wp (band_loop rasters) h
     (λ _ h', evolves aster_array
                (λ k, ∃ r, r ∈ rasters ∧ index_dict !! band_of r = Some k) h h').
Proof.
  revert h. induction rasters as [|raster rest IH]; intros h Harr.
  - apply wp_ret, evolves_refl.
  - simpl. apply wp_bind.
    eapply wp_mono; [by apply process_band_evolves|].
    intros r h1 E1. cbv beta in E1.
    assert (evolves aster_array
              (λ k, ∃ r, r ∈ raster :: rest ∧ index_dict !! band_of r = Some k)
              h h1) as E1'.
    { eapply evolves_mono; [|exact E1]. intros k Hk. exists raster.
      split; [apply elem_of_cons; by left|done]. }
    destruct r as [[]|e]; [|done].
    assert (is_Some (h1 !! aster_array)) as Harr1.
    { destruct Harr as [arr Harr]. destruct E1 as [_ A].
      destruct (A arr Harr) as (arr' & ? & _). by exists arr'. }
    eapply wp_mono; [by apply IH|].
    intros r h2 E2. cbv beta in E2. eapply evolves_trans; [exact E1'|].
    eapply evolves_mono; [|exact E2]. intros k (r' & Hin & Hk).
    exists r'. split; [apply elem_of_cons; by right|done].
Qed.

Lemma process_bands_app l1 l2 h :
  band_loop (l1 ++ l2) h = bind (band_loop l1) (λ _, band_loop l2) h.
Proof.
  revert h. induction l1 as [|raster l1 IH]; intros h; [done|].
  simpl. unfold bind.
  destruct (band_step raster h) as [[[]|e] h1]; [|done]. rewrite IH. done.
Qed.

(** The step of a raster whose lookups succeed, up to the write into the
    output array: the reprojection has filled a fresh copy of the
    destination. *)
Lemma process_band_run raster h a index gain source t f c :
  h !! destination = Some a →
  getitem index_dict (band_of raster) = Ok index →
  getitem gain_dict (band_of raster) = Ok gain →
  rasterio_read raster = Ok source →
  source_transform ul lr (shape source) = Ok t →
  reproject source a t "epsg:4326" dst_transform dst_crs resampling = Ok f →
  coefficient_of (band_of raster) gain = Ok c →
  band_step raster h =
    (if return_radiance then
       setitem_band aster_array index (radiance c (fill_buffer a f))
     else if bool_decide (band_of raster ∈ take 10 band_index) then
       irradiance <- lift (getitem irradiance_dict (band_of raster)) ;;
       elevation <- lift (getidx solar_direction 1) ;;
       setitem_band aster_array index
         (arr_map (reflectance_pixel d irradiance elevation)
                  (radiance c (fill_buffer a f)))
     else ret tt) (<[fresh (dom h) := fill_buffer a f]> h).
Proof.
  intros Ha Hi Hg Hs Ht Hf Hc. unfold process_band, bind at 1, lift at 1.
  rewrite Hi. unfold bind at 1, lift at 1. rewrite Hg.
  unfold bind at 1, lift at 1. rewrite Hs.
  unfold bind at 1, lift at 1. rewrite Ht.
  unfold bind at 1, np_copy, bind at 1, load at 1. rewrite Ha.
  unfold alloc, bind at 1, reproject_into, bind at 1, load at 1.
  rewrite lookup_insert_eq. unfold bind at 1, lift at 1. rewrite Hf.
  unfold store, bind at 1, load at 1.
  rewrite lookup_insert_eq, insert_insert_eq.
  unfold bind at 1, lift at 1. by rewrite Hc.
Qed.

End BandStep.

(** ** Lookups and array accesses *)

Lemma getitem_Ok {V} (m : gmap string V) k v : m !! k = Some v → getitem m k = Ok v.
Proof. unfold getitem. by intros ->. Qed.

Lemma getitem_Ok_inv {V} (m : gmap string V) k v : getitem m k = Ok v → m !! k = Some v.
Proof. unfold getitem. destruct (m !! k); naive_solver. Qed.

Lemma getidx_Ok {V} (l : list V) i v : l !! i = Some v → getidx l i = Ok v.
Proof. unfold getidx. by intros ->. Qed.

Lemma dict_of_lookup {V} (pairs : list (string * V)) k v :
  dict_of pairs !! k = Some v → (k, v) ∈ pairs.
Proof.
  unfold dict_of.
  assert (∀ m : gmap string V,
            foldl (λ m kv, <[kv.1 := kv.2]> m) m pairs !! k = Some v →
            m !! k = Some v ∨ (k, v) ∈ pairs) as Hgen.
  { induction pairs as [|[k' v'] pairs IH]; intros m Hm; [by left|].
    simpl in Hm. destruct (IH _ Hm) as [Hins|Hin].
    - destruct (decide (k' = k)) as [->|Hne].
      + rewrite lookup_insert_eq in Hins. right. apply elem_of_cons. left. congruence.
      + rewrite lookup_insert_ne in Hins by done. by left.
    - right. apply elem_of_cons. by right. }
  intros Hk. destruct (Hgen ∅ Hk) as [Hempty|]; [|done].
  by rewrite lookup_empty in Hempty.
Qed.

(** The band of each index (the table of the docstring). *)
Lemma index_dict_band band index :
  index_dict !! band = Some index → band_index !! index = Some band.
Proof.
  intros Hl. apply dict_of_lookup in Hl. simpl in Hl.
  repeat (apply elem_of_cons in Hl as [[= -> ->]|Hl]; [done|]).
  by apply elem_of_nil in Hl.
Qed.

Lemma index_dict_lt band index : index_dict !! band = Some index → (index < 15)%nat.
Proof.
  intros Hl. apply index_dict_band, lookup_lt_Some in Hl. exact Hl.
Qed.

Lemma index_dict_inj b1 b2 index :
  index_dict !! b1 = Some index → index_dict !! b2 = Some index → b1 = b2.
Proof. intros H1%index_dict_band H2%index_dict_band. congruence. Qed.

(** The first ten bands have the first ten indices. *)
Lemma index_dict_first_ten band index :
  index_dict !! band = Some index → band ∈ take 10 band_index → (index < 10)%nat.
Proof.
  intros Hl Hin. apply dict_of_lookup in Hl. simpl in Hl, Hin.
  repeat (apply elem_of_cons in Hl as [[= -> ->]|Hl];
          [first [lia | exfalso; by repeat (apply elem_of_cons in Hin as [?|Hin];
                                            [done|]); apply elem_of_nil in Hin]|]).
  by apply elem_of_nil in Hl.
Qed.

Lemma pixel_lt m n i j : (i < m)%nat → (j < n)%nat → (i * n + j < m * n)%nat.
Proof. nia. Qed.

Lemma pixel_in_range m n b i j k :
  (i < m)%nat → (j < n)%nat → (k < b)%nat → ((i * n + j) * b + k < m * n * b)%nat.
Proof. intros Hi Hj Hk. pose proof (pixel_lt m n i j Hi Hj). nia. Qed.

Lemma fill_buffer_lookup a f q :
  (q < length (data a))%nat → data (fill_buffer a f) !! q = Some (f q).
Proof.
  intros Hq. unfold fill_buffer. simpl. rewrite list_lookup_imap.
  by destruct (lookup_lt_is_Some_2 (data a) q Hq) as [y ->].
Qed.

Lemma radiance_lookup c a q :
  data (radiance c a) !! q = radiance_pixel c <$> data a !! q.
Proof.
  unfold radiance, masked_equal_filled, arr_map, radiance_pixel. simpl.
  rewrite !list_lookup_fmap. by destruct (data a !! q).
Qed.

Lemma setitem_band_ok aster index value h arr m n b :
  h !! aster = Some arr → shape arr = [m; n; b] → (index < b)%nat →
  shape value = [m; n] →
  setitem_band aster index value h =
    (Ok tt, <[aster := {| shape := shape arr;
                          data := assign_band b index (data value) (data arr) |}]> h).
Proof.
  intros Harr Hshape Hi Hv. unfold setitem_band, bind, load. rewrite Harr, Hshape.
  rewrite decide_True by done. by rewrite decide_True by done.
Qed.

Lemma get3_assigned arr m n b index value i j x :
  shape arr = [m; n; b] → length (data arr) = (m * n * b)%nat →
  (index < b)%nat → (i < m)%nat → (j < n)%nat →
  value !! (i * n + j)%nat = Some x →
  get3 {| shape := shape arr; data := assign_band b index value (data arr) |}
       i j index = Some x.
Proof.
  intros Hshape Hlen Hi Him Hjn Hv. unfold get3. simpl. rewrite Hshape.
  rewrite decide_True by done.
  apply lookup_assign_band_eq; [done| |done]. rewrite Hlen.
  by apply pixel_in_range.
Qed.

Lemma insert_fresh_lookup (h : heap) x l :
  is_Some (h !! l) → <[fresh (dom h) := x]> h !! l = h !! l.
Proof. intros Hl. apply lookup_insert_ne. symmetry. by apply fresh_ne. Qed.

Section BandWrite.
Context `{Platform}.
Variables (destination aster_array : loc).
Variables (dst_transform : Affine) (dst_crs : CRS) (resampling : Resampling).
Variables (return_radiance : bool).
Variables (solar_direction : list float) (gain_dict : gmap string string).
Variables (ul lr : list float) (d : float).

(** The step of a raster whose lookups succeed returns normally and leaves
    [g] of the reprojected value at every pixel of the slot of its band. *)
Lemma process_band_writes raster h a arr m n b index gain source t f c g :
  h !! destination = Some a → shape a = [m; n] →
  length (data a) = (m * n)%nat →
  h !! aster_array = Some arr → shape arr = [m; n; b] →
  length (data arr) = (m * n * b)%nat → (index < b)%nat →
  index_dict !! band_of raster = Some index →
  gain_dict !! band_of raster = Some gain →
  rasterio_read raster = Ok source →
  source_transform ul lr (shape source) = Ok t →
  reproject source a t "epsg:4326" dst_transform dst_crs resampling = Ok f →
  coefficient_of (band_of raster) gain = Ok c →
  writes_pixel return_radiance d solar_direction (band_of raster) c g →
  ∃ h' arr',
    process_band destination aster_array dst_transform dst_crs resampling
      return_radiance solar_direction gain_dict ul lr d raster h = (Ok tt, h') ∧
    h' !! aster_array = Some arr' ∧
    ∀ i j, (i < m)%nat → (j < n)%nat →
           get3 arr' i j index = Some (g (f (i * n + j)%nat)).
Proof.
  intros Ha Hsa Hla Harr Hsarr Hlarr Hib Hi Hg Hs Ht Hf Hc Hw.
  erewrite process_band_run by (done || by apply getitem_Ok).
  set (h1 := <[fresh (dom h) := fill_buffer a f]> h).
  assert (h1 !! aster_array = Some arr) as Harr1
    by (unfold h1; rewrite insert_fresh_lookup; by eauto).
  unfold writes_pixel in Hw. destruct return_radiance.
  - subst g. erewrite setitem_band_ok by (done || by simpl).
    eexists _, _. split; [done|]. rewrite lookup_insert_eq. split; [done|].
    intros i j Him Hjn. apply (get3_assigned arr m n b); try done.
    rewrite radiance_lookup, fill_buffer_lookup; [done|].
    rewrite Hla. by apply pixel_lt.
  - destruct Hw as (Hin & irr & elev & Hirr & Helev & ->).
    rewrite bool_decide_true by done.
    unfold bind at 1, lift at 1. rewrite (getitem_Ok _ _ _ Hirr).
    unfold bind at 1, lift at 1. rewrite (getidx_Ok _ _ _ Helev).
    erewrite setitem_band_ok by (done || by simpl).
    eexists _, _. split; [done|]. rewrite lookup_insert_eq. split; [done|].
    intros i j Him Hjn. apply (get3_assigned arr m n b); try done.
    unfold arr_map at 1. cbn [data]. rewrite list_lookup_fmap.
    rewrite radiance_lookup, fill_buffer_lookup; [done|].
    rewrite Hla. by apply pixel_lt.
Qed.

End BandWrite.

(** ** The whole conversion *)

Section Scene.
Context `{Platform}.
Variables (aster_file : string) (destination : loc).
Variables (dst_transform : Affine) (dst_crs : CRS) (resampling : Resampling).
Variables (return_radiance : bool).

Local Abbreviation run :=
  (process_aster_dataset aster_file destination dst_transform dst_crs
     resampling return_radiance).
Local Abbreviation bands := (if return_radiance then 15 else 10)%nat.

(** The array that line 140 or 142 builds from the destination [a]. *)
Local Abbreviation initial_output a m n :=
  {| shape := [m; n; bands]; data := data a ≫= replicate bands |}.

(** Every outcome of the conversion: the arrays of the caller are as they
    were, and a returned array is a new one with the rows and columns of the
    destination. *)
Lemma process_aster_dataset_frame h :
  wp run h
     (λ r h',
        (∀ l, is_Some (h !! l) → h' !! l = h !! l) ∧
        ∀ out, r = Ok out →
          h !! out = None ∧
          ∃ a m n arr, h !! destination = Some a ∧ shape a = [m; n] ∧
                       h' !! out = Some arr ∧ shape arr = [m; n; bands] ∧
                       length (data arr) = (length (data a) * bands)%nat).
Proof.
  unfold process_aster_dataset.
  apply wp_bind, wp_lift. destruct (gdal_Open aster_file) as [aster|]; [|done].
  cbv beta iota.
  apply wp_bind. unfold expand_dims_repeat.
  apply wp_bind, wp_load. destruct (h !! destination) as [a|] eqn:Ha; [|done].
  destruct (shape a) as [|m [|n [|]]] eqn:Hshape; try by apply wp_raise.
  apply wp_alloc. cbv beta iota.
  set (rep := {| shape := [m; n; bands]; data := data a ≫= replicate bands |}).
  set (l1 := fresh (dom h)). set (h1 := <[l1 := rep]> h).
  apply wp_bind. unfold np_copy. apply wp_bind, wp_load.
  unfold h1 at 1. rewrite lookup_insert_eq. apply wp_alloc. cbv beta iota.
  set (l2 := fresh (dom h1)). set (h2 := <[l2 := rep]> h1).
  assert (∀ l, is_Some (h !! l) → h2 !! l = h !! l) as F2.
  { intros l Hl. unfold h2, l2. rewrite insert_fresh_lookup.
    - by apply insert_fresh_lookup.
    - unfold h1, l1. by rewrite insert_fresh_lookup. }
  assert (h !! l2 = None) as Hl2.
  { destruct (h !! l2) eqn:E; [|done]. exfalso.
    assert (is_Some (h1 !! l2)) as Hs
      by (unfold h1, l1; rewrite insert_fresh_lookup; by eauto).
    by apply fresh_ne in Hs. }
  wp_step; [|done].
  apply wp_bind. eapply wp_mono.
  { apply process_bands_evolves. unfold h2. rewrite lookup_insert_eq. by eexists. }
  intros r h3 [F3 A3]. cbv beta in F3, A3.
  assert (∀ l, is_Some (h !! l) → h3 !! l = h !! l) as F.
  { intros l Hl. rewrite <- (F2 l Hl). apply F3.
    - by rewrite (F2 l Hl).
    - intros ->. rewrite Hl2 in Hl. by destruct Hl. }
  destruct r as [[]|e]; [|done]. apply wp_ret. split; [done|].
  intros out [= <-]. split; [done|].
  destruct (A3 rep) as (arr & Harr & Hs & Hlen & _).
  { unfold h2. by rewrite lookup_insert_eq. }
  exists a, m, n, arr. repeat split; try done.
  rewrite Hlen. apply length_bind_replicate.
Qed.

(** The conversion of a scene whose file opens and whose metadata reads, up
    to the loop over its rasters. *)
Lemma process_aster_dataset_start h aster sc a m n :
  gdal_Open aster_file = Some aster →
  scene_constants aster = Ok sc →
  h !! destination = Some a → shape a = [m; n] →
  let h1 := <[fresh (dom h) := initial_output a m n]> h in
  let aster_array := fresh (dom h1) in
  run h =
    bind (process_bands destination aster_array dst_transform dst_crs resampling
            return_radiance (sc_solar_direction sc) (sc_gain_dict sc)
            (sc_ul sc) (sc_lr sc) (earth_sun_distance (sc_doy sc))
            (raster_list_of (GetSubDatasets aster)))
         (λ _, ret aster_array)
         (<[aster_array := initial_output a m n]> h1).
Proof.
  intros Ho Hsc Ha Hs h1 aster_array. unfold process_aster_dataset.
  unfold bind at 1, lift at 1. rewrite Ho.
  unfold bind at 1, expand_dims_repeat, bind at 1, load at 1. rewrite Ha, Hs.
  unfold alloc at 1, bind at 1, np_copy, bind at 1, load at 1.
  fold h1. unfold h1 at 1. rewrite lookup_insert_eq. unfold alloc at 1.
  fold aster_array. unfold bind at 1, lift at 1. by rewrite Hsc.
Qed.

(** A raster of the scene whose lookups succeed, and after which no raster
    of the same band comes: when the conversion returns, the slot of its band
    holds, at each pixel, [g] of the value reprojected there. *)
Lemma output_pixel h aster sc a m n before raster after
    index gain source t f c g out h' :
  gdal_Open aster_file = Some aster →
  scene_constants aster = Ok sc →
  h !! destination = Some a → shape a = [m; n] →
  length (data a) = (m * n)%nat →
  raster_list_of (GetSubDatasets aster) = (before ++ raster :: after)%list →
  (∀ r, r ∈ after → band_of r ≠ band_of raster) →
  index_dict !! band_of raster = Some index →
  sc_gain_dict sc !! band_of raster = Some gain →
  rasterio_read raster = Ok source →
  source_transform (sc_ul sc) (sc_lr sc) (shape source) = Ok t →
  reproject source a t "epsg:4326" dst_transform dst_crs resampling = Ok f →
  coefficient_of (band_of raster) gain = Ok c →
  writes_pixel return_radiance (earth_sun_distance (sc_doy sc))
    (sc_solar_direction sc) (band_of raster) c g →
  run h = (Ok out, h') →
  ∃ arr, h' !! out = Some arr ∧
         ∀ i j, (i < m)%nat → (j < n)%nat →
                get3 arr i j index = Some (g (f (i * n + j)%nat)).
Proof.
  intros Ho Hsc Ha Hs Hla Hl Hafter Hi Hg Hsrc Ht Hf Hc Hw Hrun.
  rewrite (process_aster_dataset_start h aster sc a m n Ho Hsc Ha Hs) in Hrun.
  cbv zeta in Hrun. rewrite Hl in Hrun.
  set (rep := initial_output a m n) in *.
  set (h1 := <[fresh (dom h) := rep]> h) in *.
  set (aa := fresh (dom h1)) in *.
  set (h2 := <[aa := rep]> h1) in *.
  assert (h2 !! aa = Some rep) as Haa2 by (unfold h2; by rewrite lookup_insert_eq).
  assert (h2 !! destination = Some a) as Hd2.
  { unfold h2, aa. rewrite insert_fresh_lookup.
    - unfold h1. rewrite insert_fresh_lookup; [done|by eexists].
    - unfold h1. rewrite insert_fresh_lookup; by eexists. }
  assert (destination ≠ aa) as Hne.
  { intros Heq.
    assert (is_Some (h1 !! destination)) as Hs1
      by (unfold h1; rewrite insert_fresh_lookup; by eexists).
    by apply fresh_ne in Hs1. }
  unfold bind at 1 in Hrun. rewrite process_bands_app in Hrun.
  unfold bind at 1 in Hrun.
  (* the rasters before *)
  pose proof (process_bands_evolves destination aa dst_transform dst_crs resampling
    return_radiance (sc_solar_direction sc) (sc_gain_dict sc) (sc_ul sc) (sc_lr sc)
    (earth_sun_distance (sc_doy sc)) before h2 (ltac:(by eexists))) as E3.
  unfold wp in E3.
  destruct (process_bands destination aa dst_transform dst_crs resampling
    return_radiance (sc_solar_direction sc) (sc_gain_dict sc) (sc_ul sc) (sc_lr sc)
    (earth_sun_distance (sc_doy sc)) before h2) as [[[]|e] h3]; [|done].
  simpl in E3. destruct E3 as [F3 A3].
  destruct (A3 rep Haa2) as (arr3 & Haa3 & Hs3 & Hl3 & _).
  assert (h3 !! destination = Some a) as Hd3
    by (rewrite F3; [done|by eexists|done]).
  (* the raster itself *)
  assert (index < bands)%nat as Hib.
  { unfold writes_pixel in Hw. destruct return_radiance.
    - by eapply index_dict_lt.
    - destruct Hw as [Hin _]. by eapply index_dict_first_ten. }
  destruct (process_band_writes destination aa dst_transform dst_crs resampling
    return_radiance (sc_solar_direction sc) (sc_gain_dict sc) (sc_ul sc) (sc_lr sc)
    (earth_sun_distance (sc_doy sc)) raster h3 a arr3 m n bands index gain source
    t f c g) as (h4 & arr4 & Hstep & Haa4 & Hpix); try done.
  { rewrite Hl3. unfold rep. simpl. rewrite length_bind_replicate. by rewrite Hla. }
  simpl in Hrun. unfold bind at 1 in Hrun. rewrite Hstep in Hrun.
  (* the rasters after *)
  pose proof (process_bands_evolves destination aa dst_transform dst_crs resampling
    return_radiance (sc_solar_direction sc) (sc_gain_dict sc) (sc_ul sc) (sc_lr sc)
    (earth_sun_distance (sc_doy sc)) after h4 (ltac:(by eexists))) as E5.
  unfold wp in E5.
  destruct (process_bands destination aa dst_transform dst_crs resampling
    return_radiance (sc_solar_direction sc) (sc_gain_dict sc) (sc_ul sc) (sc_lr sc)
    (earth_sun_distance (sc_doy sc)) after h4) as [[[]|e] h5]; [|done].
  simpl in E5. destruct E5 as [_ A5].
  destruct (A5 arr4 Haa4) as (arr5 & Haa5 & _ & _ & G5).
  unfold ret in Hrun. injection Hrun as <- <-.
  exists arr5. split; [done|]. intros i j Him Hjn.
  rewrite G5; [by apply Hpix|].
  intros (r & Hr & Hri). apply (Hafter r Hr). by eapply index_dict_inj.
Qed.

End Scene.

(** ** Not-a-number in the arithmetic of a pixel *)

Lemma nan_mul x : nan * x = nan.
Proof. apply Prim2SF_inj. by rewrite mul_spec. Qed.

Lemma nan_div x : nan / x = nan.
Proof. apply Prim2SF_inj. by rewrite div_spec. Qed.

Lemma mul_nan x : x * nan = nan.
Proof.
  apply Prim2SF_inj. rewrite mul_spec.
  change (Prim2SF nan) with S754_nan. unfold SF64mul, SFmul.
  by destruct (Prim2SF x).
Qed.

Lemma radiance_pixel_nodata c x :
  PrimFloat.eqb x 0 = true → radiance_pixel c x = np_nan.
Proof. intros Hx. unfold radiance_pixel. rewrite Hx. apply nan_mul. Qed.

Lemma radiance_pixel_data c x :
  PrimFloat.eqb x 0 = false → radiance_pixel c x = (x - 1) * c.
Proof. intros Hx. unfold radiance_pixel. by rewrite Hx. Qed.

Lemma radiance_pixel_undefined x : radiance_pixel np_nan x = np_nan.
Proof. apply mul_nan. Qed.

Lemma reflectance_pixel_nan `{Platform} d irradiance elevation :
  reflectance_pixel d irradiance elevation np_nan = np_nan.
Proof.
  unfold reflectance_pixel, np_nan. rewrite mul_nan, nan_mul. apply nan_div.
Qed.

(** ** The tables *)

(** The bands with an irradiance are among the first ten. *)
Lemma irradiance_first_ten band irradiance :
  irradiance_dict !! band = Some irradiance → band ∈ take 10 band_index.
Proof.
  intros Hl. apply dict_of_lookup in Hl. simpl.
  repeat (apply elem_of_cons in Hl as [[= -> _]|Hl];
          [repeat first [by apply list_elem_of_here | apply list_elem_of_further]|]).
  by apply elem_of_nil in Hl.
Qed.

(** ** What the conversion reads from the metadata *)

Lemma rbind_Ok {A B} (r : result A) (k : A → result B) b :
  rbind r k = Ok b → ∃ a, r = Ok a ∧ k a = Ok b.
Proof. destruct r as [a|e]; [|done]. intros Hk. by exists a. Qed.

Lemma scene_constants_inv `{Platform} aster sc :
  scene_constants aster = Ok sc →
  make_gain_dict (GetMetadata_List aster) = Ok (sc_gain_dict sc) ∧
  ∃ calendardate, GetMetadata aster !! "CALENDARDATE" = Some calendardate ∧
                  day_of_year calendardate = Ok (sc_doy sc).
Proof.
  unfold scene_constants. intros Hsc.
  repeat (apply rbind_Ok in Hsc as (? & ? & Hsc)).
  injection Hsc as <-. simpl. split; [done|].
  eexists. split; [by apply getitem_Ok_inv|done].
Qed.

Lemma make_gain_dict_thermal `{Platform} metadata_list gain_dict band :
  make_gain_dict metadata_list = Ok gain_dict →
  band ∈ ["10"; "11"; "12"; "13"; "14"] →
  gain_dict !! band = Some "NOR".
Proof.
  unfold make_gain_dict. intros Hg Hin.
  repeat (apply rbind_Ok in Hg as (? & ? & Hg)). injection Hg as <-. simpl.
  repeat (apply elem_of_cons in Hin as [->|Hin];
          [by repeat (rewrite lookup_insert_ne by done); rewrite lookup_insert_eq|]).
  by apply elem_of_nil in Hin.
Qed.

Lemma thermal_coefficient_defined band :
  band ∈ ["10"; "11"; "12"; "13"; "14"] →
  ∃ c, coefficient_of band "NOR" = Ok c ∧ PrimFloat.is_nan c = false.
Proof.
  intros Hin.
  repeat (apply elem_of_cons in Hin as [->|Hin];
          [eexists; split; vm_compute; reflexivity|]).
  by apply elem_of_nil in Hin.
Qed.

(** ** Runs that return normally *)

Section BandsOk.
Context `{Platform}.
Variables (destination aster_array : loc).
Variables (dst_transform : Affine) (dst_crs : CRS) (resampling : Resampling).
Variables (return_radiance : bool).
Variables (solar_direction : list float) (gain_dict : gmap string string).
Variables (ul lr : list float) (d : float).
Variables (a : ndarray) (m n : nat).

Local Abbreviation ready :=
  (band_ready dst_transform dst_crs resampling return_radiance solar_direction
     gain_dict ul lr a).
Local Abbreviation invariant :=
  (loop_invariant destination aster_array return_radiance a m n).

Hypothesis Hshape : shape a = [m; n].
Hypothesis Hlength : length (data a) = (m * n)%nat.
Hypothesis Hdistinct : destination ≠ aster_array.

Lemma loop_invariant_evolves W h h' :
  invariant h → evolves aster_array W h h' → invariant h'.
Proof using Hdistinct.
  intros (Ha & arr & Harr & Hs & Hl) [F A]. split.
  - rewrite F; [done|by eexists|done].
  - destruct (A arr Harr) as (arr' & Harr' & Hs' & Hl' & _).
    exists arr'. split; [done|]. split; congruence.
Qed.

Lemma process_band_ok raster h :
  invariant h → ready raster →
  ∃ h', process_band destination aster_array dst_transform dst_crs resampling
          return_radiance solar_direction gain_dict ul lr d raster h = (Ok tt, h')
        ∧ invariant h'.
Proof using Hshape Hlength Hdistinct.
  intros Hinv (index & gain & source & t & f & c & Hi & Hg & Hs & Ht & Hf & Hc & Hmode).
  assert (∀ h', process_band destination aster_array dst_transform dst_crs
                  resampling return_radiance solar_direction gain_dict ul lr d
                  raster h = (Ok tt, h') → invariant h') as Hkeep.
  { intros h' Hrun. eapply loop_invariant_evolves; [exact Hinv|].
    eapply (wp_run _ _ _ _ _ (process_band_evolves _ _ _ _ _ _ _ _ _ _ _ raster h _) Hrun). }
  destruct Hinv as (Ha & arr & Harr & Hsa & Hla).
  assert (∀ g, writes_pixel return_radiance d solar_direction (band_of raster) c g →
               ∃ h', process_band destination aster_array dst_transform dst_crs
                       resampling return_radiance solar_direction gain_dict ul lr d
                       raster h = (Ok tt, h')) as Hwrites.
  { intros g Hw.
    assert (index < if return_radiance then 15 else 10)%nat as Hib.
    { unfold writes_pixel in Hw. destruct return_radiance.
      - by eapply index_dict_lt.
      - destruct Hw as [Hin _]. by eapply index_dict_first_ten. }
    destruct (process_band_writes destination aster_array dst_transform dst_crs
      resampling return_radiance solar_direction gain_dict ul lr d raster h a arr
      m n (if return_radiance then 15 else 10)%nat index gain source t f c g)
      as (h' & _ & Hrun & _); try done.
    by exists h'. }
  assert (∃ h', process_band destination aster_array dst_transform dst_crs
                  resampling return_radiance solar_direction gain_dict ul lr d
                  raster h = (Ok tt, h')) as [h' Hrun].
  { destruct return_radiance eqn:Hrr.
    - by apply (Hwrites (radiance_pixel c)).
    - destruct Hmode as [?|[Hout|[[irr Hirr] [elev Helev]]]]; [done| |].
      + erewrite process_band_run by (done || by apply getitem_Ok).
        rewrite bool_decide_false by done. by eexists.
      + apply (Hwrites (λ x, reflectance_pixel d irr elev (radiance_pixel c x))).
        split; [by eapply irradiance_first_ten|]. by exists irr, elev. }
  exists h'. split; [done|]. by apply Hkeep.
  Unshelve. by destruct Hinv as (_ & arr & ? & _); eexists.
Qed.

Lemma process_bands_ok rasters h :
  invariant h → (∀ r, r ∈ rasters → ready r) →
  ∃ h', process_bands destination aster_array dst_transform dst_crs resampling
          return_radiance solar_direction gain_dict ul lr d rasters h = (Ok tt, h')
        ∧ invariant h'.
Proof using Hshape Hlength Hdistinct.
  revert h. induction rasters as [|raster rest IH]; intros h Hinv Hready.
  - by exists h.
  - destruct (process_band_ok raster h Hinv) as (h1 & Hstep & Hinv1).
    { apply Hready, elem_of_cons. by left. }
    destruct (IH h1 Hinv1) as (h2 & Hrest & Hinv2).
    { intros r Hr. apply Hready, elem_of_cons. by right. }
    exists h2. split; [|done]. simpl. unfold bind. by rewrite Hstep.
Qed.

End BandsOk.


(** * The properties of the conversion *)

(** ** The output array *)

(** C1, as the code has it: the returned array has the rows and the columns
    of the destination and a band axis of 15 slots in radiance mode, of 10
    slots in reflectance mode (the indices 0 to 9 of the band table), and its
    elements fill that shape. *)
Theorem output_shape `{Platform} aster_file destination dst_transform dst_crs
    resampling return_radiance (h : heap) a m n out h' :
  h !! destination = Some a → shape a = [m; n] → wf_array a →
  process_aster_dataset aster_file destination dst_transform dst_crs resampling
    return_radiance h = (Ok out, h') →
  ∃ arr, h' !! out = Some arr ∧
         shape arr = [m; n; if return_radiance then 15 else 10]%nat ∧
         wf_array arr.
Proof.
  intros Ha Hs Hwf Hrun.
  pose proof (wp_run _ _ _ _ _
    (process_aster_dataset_frame aster_file destination dst_transform dst_crs
       resampling return_radiance h) Hrun) as [_ Hout].
  destruct (Hout out eq_refl) as (_ & a' & m' & n' & arr & Ha' & Hs' & Harr & Hsarr & Hl).
  assert (a' = a) as -> by congruence.
  assert (m' = m ∧ n' = n) as [-> ->] by (split; congruence).
  exists arr. split; [done|]. split; [done|].
  unfold wf_array in *. rewrite Hl, Hwf, Hs, Hsarr. simpl. lia.
Qed.

Lemma output_shape_demo :
  ∃ arr, (Demo.convert "scene.hdf" false).2 !! 3%positive = Some arr ∧
         shape arr = [2; 2; 10]%nat ∧ wf_array arr.
Proof.
  apply (@output_shape Demo.platform "scene.hdf" Demo.destination Demo.grid
           "epsg:32722" nearest false Demo.heap0 Demo.fill 2 2 3%positive
           (Demo.convert "scene.hdf" false).2);
    vm_compute; reflexivity.
Defined.

(** C1 as stated fails: in reflectance mode the band axis of the returned
    array has 10 slots, not 9. *)
Lemma reflectance_output_has_ten_slots :
  shape <$> Demo.output "scene.hdf" false = Some [2; 2; 10]%nat.
Proof. vm_compute. reflexivity. Qed.

(** C10: whatever the outcome of the conversion, the destination array of
    the caller is as it was, and so is every array that existed before the
    call; a returned array is a new object, not the destination. *)
Theorem destination_unchanged `{Platform} aster_file destination dst_transform
    dst_crs resampling return_radiance (h : heap) :
  let outcome := process_aster_dataset aster_file destination dst_transform
                   dst_crs resampling return_radiance h in
  outcome.2 !! destination = h !! destination ∧
  (∀ l, is_Some (h !! l) → outcome.2 !! l = h !! l) ∧
  (∀ out, outcome.1 = Ok out → out ≠ destination ∧ h !! out = None).
Proof.
  intros outcome.
  pose proof (process_aster_dataset_frame aster_file destination dst_transform
                dst_crs resampling return_radiance h) as Hwp.
  unfold wp in Hwp. fold outcome in Hwp. destruct Hwp as [F Hout].
  split; [|split; [done|]].
  - destruct (h !! destination) as [a|] eqn:Ha.
    + rewrite <- Ha. apply F. rewrite Ha. by eexists.
    + (* without a destination the conversion stops before any allocation *)
      unfold outcome, process_aster_dataset, bind at 1, lift at 1.
      destruct (gdal_Open aster_file); [|done].
      unfold bind at 1, expand_dims_repeat, bind at 1, load at 1. by rewrite Ha.
  - intros out Hr. destruct (Hout out Hr) as (Hnew & a & _ & _ & _ & Ha & _).
    split; [|done]. intros ->. congruence.
Qed.

(** ** The day of the year *)

(** C9: the date "20170615" is day 166 of its year. *)
Theorem day_of_year_20170615 : day_of_year "20170615" = Ok 166%Z.
Proof. reflexivity. Qed.

(** ** The pixels of a band *)

Section RasterOutput.
Context `{Platform}.
Variables (aster_file : string) (destination : loc).
Variables (dst_transform : Affine) (dst_crs : CRS) (resampling : Resampling).

(** The scene: its file opens, its metadata reads, and the destination is a
    two-dimensional array [a] of [m] rows and [n] columns. *)
Variables (h : heap) (aster : Dataset) (sc : SceneConstants).
Variables (a : ndarray) (m n : nat).
Hypothesis Hopen : gdal_Open aster_file = Some aster.
Hypothesis Hmetadata : scene_constants aster = Ok sc.
Hypothesis Hdestination : h !! destination = Some a.
Hypothesis Hshape : shape a = [m; n].
Hypothesis Hlength : length (data a) = (m * n)%nat.

(** A raster of the scene, the last one of its band: the index and the gain
    of the band, the source array read, its transform, the values [f] that
    the reprojection writes into the copy of the destination, and the
    coefficient [c] of the band at its gain. *)
Variables (before after : list string) (raster : string).
Variables (index : nat) (gain : string) (source : ndarray) (t : Affine).
Variables (f : nat → float) (c : float).
Hypothesis Hrasters :
  raster_list_of (GetSubDatasets aster) = (before ++ raster :: after)%list.
Hypothesis Hlast : ∀ r, r ∈ after → band_of r ≠ band_of raster.
Hypothesis Hindex : index_dict !! band_of raster = Some index.
Hypothesis Hgain : sc_gain_dict sc !! band_of raster = Some gain.
Hypothesis Hsource : rasterio_read raster = Ok source.
Hypothesis Htransform :
  source_transform (sc_ul sc) (sc_lr sc) (shape source) = Ok t.
Hypothesis Hreproject :
  reproject source a t "epsg:4326" dst_transform dst_crs resampling = Ok f.
Hypothesis Hcoefficient : coefficient_of (band_of raster) gain = Ok c.

(** C3: in radiance mode, at a pixel whose reprojected value is not 0, the
    slot of the band in the returned array holds that value minus 1, times
    the coefficient of the band at its gain. *)
Theorem radiance_output out h' i j :
  process_aster_dataset aster_file destination dst_transform dst_crs resampling
    true h = (Ok out, h') →
  (i < m)%nat → (j < n)%nat →
  PrimFloat.eqb (f (i * n + j)%nat) 0 = false →
  ∃ arr, h' !! out = Some arr ∧
         get3 arr i j index = Some ((f (i * n + j)%nat - 1) * c).
Proof using All.
  intros Hrun Hi Hj Hdata.
  destruct (output_pixel aster_file destination dst_transform dst_crs resampling
              true h aster sc a m n before raster after index gain source t f c
              (radiance_pixel c) out h') as (arr & Harr & Hpix); try done.
  exists arr. split; [done|]. rewrite (Hpix i j Hi Hj).
  by rewrite radiance_pixel_data.
Qed.

(** C4: at a pixel whose reprojected value is 0, what the band writes is
    not-a-number, whatever the coefficient: the radiance in radiance mode,
    and in reflectance mode the reflectance of a band that has an irradiance
    (the solar direction having an elevation). *)
Theorem nodata_output return_radiance out h' i j :
  return_radiance = true ∨
  (is_Some (irradiance_dict !! band_of raster) ∧
   is_Some (sc_solar_direction sc !! 1%nat)) →
  process_aster_dataset aster_file destination dst_transform dst_crs resampling
    return_radiance h = (Ok out, h') →
  (i < m)%nat → (j < n)%nat →
  PrimFloat.eqb (f (i * n + j)%nat) 0 = true →
  radiance_pixel c (f (i * n + j)%nat) = np_nan ∧
  ∃ arr, h' !! out = Some arr ∧ get3 arr i j index = Some np_nan.
Proof using All.
  intros Hmode Hrun Hi Hj Hzero. split; [by apply radiance_pixel_nodata|].
  assert (∃ g, writes_pixel return_radiance (earth_sun_distance (sc_doy sc))
                 (sc_solar_direction sc) (band_of raster) c g ∧
               g (f (i * n + j)%nat) = np_nan) as (g & Hw & Hg).
  { destruct return_radiance.
    - exists (radiance_pixel c). split; [done|]. by apply radiance_pixel_nodata.
    - destruct Hmode as [?|[[irr Hirr] [elev Helev]]]; [done|].
      exists (λ x, reflectance_pixel (earth_sun_distance (sc_doy sc)) irr elev
                     (radiance_pixel c x)).
      split.
      + split; [by eapply irradiance_first_ten|]. by exists irr, elev.
      + cbv beta. rewrite radiance_pixel_nodata by done.
        apply reflectance_pixel_nan. }
  destruct (output_pixel aster_file destination dst_transform dst_crs resampling
              return_radiance h aster sc a m n before raster after index gain
              source t f c g out h') as (arr & Harr & Hpix); try done.
  exists arr. split; [done|]. by rewrite (Hpix i j Hi Hj), Hg.
Qed.

(** C5: in reflectance mode, the slot of a band that has an irradiance holds
    pi times the radiance times the square of the Earth-Sun distance, over
    the irradiance times the sine of the solar elevation; the distance is
    that of the day of the year of the calendar date of the scene, the same
    for all its bands. *)
Theorem reflectance_output irradiance elevation calendardate doy out h' i j :
  irradiance_dict !! band_of raster = Some irradiance →
  sc_solar_direction sc !! 1%nat = Some elevation →
  GetMetadata aster !! "CALENDARDATE" = Some calendardate →
  day_of_year calendardate = Ok doy →
  process_aster_dataset aster_file destination dst_transform dst_crs resampling
    false h = (Ok out, h') →
  (i < m)%nat → (j < n)%nat →
  let earthSunDistance :=
    1 - 0.01672 * np_cos (np_radians (0.9856 * float_of_Z (doy - 4))) in
  let radiance := radiance_pixel c (f (i * n + j)%nat) in
  ∃ arr, h' !! out = Some arr ∧
         get3 arr i j index =
           Some ((np_pi * radiance * np_power earthSunDistance 2) /
                 (irradiance * np_sin (np_deg2rad elevation))).
Proof using All.
  intros Hirr Helev Hdate Hdoy Hrun Hi Hj d rad.
  destruct (scene_constants_inv aster sc Hmetadata) as (_ & date & Hdate' & Hdoy').
  assert (sc_doy sc = doy) as Hsame by congruence.
  destruct (output_pixel aster_file destination dst_transform dst_crs resampling
              false h aster sc a m n before raster after index gain source t f c
              (λ x, reflectance_pixel (earth_sun_distance (sc_doy sc))
                      irradiance elevation (radiance_pixel c x)) out h')
    as (arr & Harr & Hpix); try done.
  { split; [by eapply irradiance_first_ten|]. by exists irradiance, elevation. }
  exists arr. split; [done|]. rewrite (Hpix i j Hi Hj). by rewrite Hsame.
Qed.

(** X8. A band whose coefficient is not-a-number at its gain: where the band is
    written, every pixel of its slot is not-a-number. *)
Lemma undefined_coefficient_output return_radiance out h' i j :
  c = np_nan →
  return_radiance = true ∨
  (is_Some (irradiance_dict !! band_of raster) ∧
   is_Some (sc_solar_direction sc !! 1%nat)) →
  process_aster_dataset aster_file destination dst_transform dst_crs resampling
    return_radiance h = (Ok out, h') →
  (i < m)%nat → (j < n)%nat →
  ∃ arr, h' !! out = Some arr ∧ get3 arr i j index = Some np_nan.
Proof using All.
  intros Hc Hmode Hrun Hi Hj.
  assert (∃ g, writes_pixel return_radiance (earth_sun_distance (sc_doy sc))
                 (sc_solar_direction sc) (band_of raster) c g ∧
               g (f (i * n + j)%nat) = np_nan) as (g & Hw & Hg).
  { destruct return_radiance.
    - exists (radiance_pixel c). split; [done|]. rewrite Hc.
      apply radiance_pixel_undefined.
    - destruct Hmode as [?|[[irr Hirr] [elev Helev]]]; [done|].
      exists (λ x, reflectance_pixel (earth_sun_distance (sc_doy sc)) irr elev
                     (radiance_pixel c x)).
      split.
      + split; [by eapply irradiance_first_ten|]. by exists irr, elev.
      + cbv beta. rewrite Hc, radiance_pixel_undefined.
        apply reflectance_pixel_nan. }
  destruct (output_pixel aster_file destination dst_transform dst_crs resampling
              return_radiance h aster sc a m n before raster after index gain
              source t f c g out h') as (arr & Harr & Hpix); try done.
  exists arr. split; [done|]. by rewrite (Hpix i j Hi Hj), Hg.
Qed.

End RasterOutput.

Lemma radiance_output_demo :
  ∃ arr, (Demo.convert "scene.hdf" true).2 !! 3%positive = Some arr ∧
         get3 arr 0 0 0 = Some ((101 - 1) * 0.676).
Proof.
  eapply (@radiance_output Demo.platform "scene.hdf" Demo.destination Demo.grid
            "epsg:32722" nearest Demo.heap0 Demo.scene (Demo.constants Demo.scene)
            Demo.fill 2 2) with
    (before := []) (after := [Demo.raster_name "10"])
    (raster := Demo.raster_name "1") (gain := "HGH") (source := Demo.band_1)
    (f := Demo.copy_pixels Demo.band_1) (i := 0%nat) (j := 0%nat);
    try (vm_compute; reflexivity); try (vm_compute; lia).
  intros r Hr. apply list_elem_of_singleton in Hr. subst r.
  vm_compute. discriminate.
Defined.

Lemma nodata_output_demo :
  radiance_pixel 0.676 0 = np_nan ∧
  ∃ arr, (Demo.convert "scene.hdf" false).2 !! 3%positive = Some arr ∧
         get3 arr 0 1 0 = Some np_nan.
Proof.
  eapply (@nodata_output Demo.platform "scene.hdf" Demo.destination Demo.grid
            "epsg:32722" nearest Demo.heap0 Demo.scene (Demo.constants Demo.scene)
            Demo.fill 2 2) with
    (before := []) (after := [Demo.raster_name "10"])
    (raster := Demo.raster_name "1") (gain := "HGH") (source := Demo.band_1)
    (f := Demo.copy_pixels Demo.band_1) (return_radiance := false)
    (i := 0%nat) (j := 1%nat);
    try (vm_compute; reflexivity); try (vm_compute; lia).
  - intros r Hr. apply list_elem_of_singleton in Hr. subst r.
    vm_compute. discriminate.
  - right. split; eexists; vm_compute; reflexivity.
Defined.

Lemma reflectance_output_demo :
  let d := 1 - 0.01672 * Demo.cosine (Demo.radians (0.9856 * 162)) in
  ∃ arr, (Demo.convert "scene.hdf" false).2 !! 3%positive = Some arr ∧
         get3 arr 0 0 0 =
           Some ((np_pi * ((101 - 1) * 0.676) * (d * d)) /
                 (1848.99 * Demo.sine (Demo.radians 60))).
Proof.
  eapply (@reflectance_output Demo.platform "scene.hdf" Demo.destination Demo.grid
            "epsg:32722" nearest Demo.heap0 Demo.scene (Demo.constants Demo.scene)
            Demo.fill 2 2) with
    (before := []) (after := [Demo.raster_name "10"])
    (raster := Demo.raster_name "1") (gain := "HGH") (source := Demo.band_1)
    (f := Demo.copy_pixels Demo.band_1) (c := 0.676) (irradiance := 1848.99)
    (elevation := 60) (calendardate := "20170615") (doy := 166%Z)
    (i := 0%nat) (j := 0%nat);
    try (vm_compute; reflexivity); try (vm_compute; lia).
  intros r Hr. apply list_elem_of_singleton in Hr. subst r.
  vm_compute. discriminate.
Defined.

(** ** The corners of the scene *)

(** C7, as the code has it: the corners are not checked. Whatever the
    longitudes [west], [east] and the latitudes [north], [south] read from
    the metadata, the transform of each raster is [from_bounds] of them,
    handed to the reprojection inside the loop; when the lookups and the
    reprojection of every raster succeed, the conversion returns an array. *)
Theorem corners_are_not_checked `{Platform} aster_file destination dst_transform
    dst_crs resampling return_radiance (h : heap) aster sc a m n
    west north east south :
  gdal_Open aster_file = Some aster →
  scene_constants aster = Ok sc →
  h !! destination = Some a → shape a = [m; n] →
  length (data a) = (m * n)%nat →
  sc_ul sc = [west; north] → sc_lr sc = [east; south] →
  (∀ raster, raster ∈ raster_list_of (GetSubDatasets aster) →
     ∃ index gain source height width f c,
       index_dict !! band_of raster = Some index ∧
       sc_gain_dict sc !! band_of raster = Some gain ∧
       rasterio_read raster = Ok source ∧
       shape source = [height; width] ∧
       reproject source a (from_bounds west south east north width height)
         "epsg:4326" dst_transform dst_crs resampling = Ok f ∧
       coefficient_of (band_of raster) gain = Ok c ∧
       (return_radiance = true ∨ band_of raster ∉ take 10 band_index ∨
        (is_Some (irradiance_dict !! band_of raster) ∧
         is_Some (sc_solar_direction sc !! 1%nat)))) →
  ∃ out h',
    process_aster_dataset aster_file destination dst_transform dst_crs
      resampling return_radiance h = (Ok out, h').
Proof.
  intros Ho Hsc Ha Hs Hla Hul Hlr Hready.
  rewrite (process_aster_dataset_start aster_file destination dst_transform
             dst_crs resampling return_radiance h aster sc a m n Ho Hsc Ha Hs).
  cbv zeta.
  set (rep := {| shape := [m; n; if return_radiance then 15 else 10]%nat;
                 data := data a ≫= replicate (if return_radiance then 15 else 10)%nat |}).
  set (h1 := <[fresh (dom h) := rep]> h).
  set (aa := fresh (dom h1)). set (h2 := <[aa := rep]> h1).
  assert (is_Some (h1 !! destination)) as Hs1
    by (unfold h1; rewrite insert_fresh_lookup; by eexists).
  assert (destination ≠ aa) as Hne by (by apply fresh_ne).
  destruct (process_bands_ok destination aa dst_transform dst_crs resampling
              return_radiance (sc_solar_direction sc) (sc_gain_dict sc)
              (sc_ul sc) (sc_lr sc) (earth_sun_distance (sc_doy sc)) a m n
              Hs Hla Hne (raster_list_of (GetSubDatasets aster)) h2)
    as (h3 & Hloop & _).
  - split.
    + unfold h2. rewrite lookup_insert_ne by done.
      unfold h1. rewrite insert_fresh_lookup; [done|by eexists].
    + exists rep. unfold h2. rewrite lookup_insert_eq. split; [done|].
      split; [done|]. simpl. rewrite length_bind_replicate. by rewrite Hla.
  - intros r Hr.
    destruct (Hready r Hr)
      as (index & gain & source & height & width & f & c &
          Hi & Hg & Hsrc & Hshape & Hf & Hc & Hmode).
    exists index, gain, source, (from_bounds west south east north width height), f, c.
    repeat split; try done. by rewrite Hul, Hlr, Hshape.
  - exists aa, h3. unfold bind. by rewrite Hloop.
Qed.

Lemma corners_are_not_checked_demo :
  ∃ out h', Demo.convert "scene_swapped.hdf" false = (Ok out, h').
Proof.
  eapply (@corners_are_not_checked Demo.platform "scene_swapped.hdf"
            Demo.destination Demo.grid "epsg:32722" nearest false Demo.heap0
            Demo.scene_swapped (Demo.constants Demo.scene_swapped)
            Demo.fill 2 2 (-50) (-20.5) (-50.5) (-20));
    try (vm_compute; reflexivity).
  intros raster Hr. vm_compute in Hr.
  apply list_elem_of_singleton in Hr. subst raster.
  exists 0%nat, "HGH", Demo.band_1, 2%nat, 2%nat, (Demo.copy_pixels Demo.band_1), 0.676.
  repeat split; try (vm_compute; reflexivity).
  right. right. split; eexists; vm_compute; reflexivity.
Defined.

(** C7 as stated fails: with the corners exchanged (the upper-left corner is
    east and south of the lower-right one: its longitude is the greater, its
    latitude the smaller) the transform of the source is [from_bounds] of
    them, which can be inverted; the conversion signals nothing, processes
    band "1" and returns its array, in both modes. *)
Lemma swapped_corners_are_accepted :
  sc_ul (Demo.constants Demo.scene_swapped) = [-50; -20.5]%float ∧
  sc_lr (Demo.constants Demo.scene_swapped) = [-50.5; -20]%float ∧
  PrimFloat.ltb (-50.5) (-50) = true ∧ PrimFloat.ltb (-20.5) (-20) = true ∧
  source_transform (sc_ul (Demo.constants Demo.scene_swapped))
    (sc_lr (Demo.constants Demo.scene_swapped)) (shape Demo.band_1) =
    Ok (from_bounds (-50) (-20) (-50.5) (-20.5) 2 2) ∧
  Demo.invertible (from_bounds (-50) (-20) (-50.5) (-20.5) 2 2) = true ∧
  (Demo.convert "scene_swapped.hdf" true).1 = Ok 3%positive ∧
  (Demo.convert "scene_swapped.hdf" false).1 = Ok 3%positive.
Proof. vm_compute. repeat split; reflexivity. Qed.

(** ** Bands without an irradiance, in reflectance mode *)

Section SkippedBands.
Context `{Platform}.
Variables (destination aster_array : loc).
Variables (dst_transform : Affine) (dst_crs : CRS) (resampling : Resampling).
Variables (solar_direction : list float) (gain_dict : gmap string string).
Variables (ul lr : list float) (d : float).
Variables (raster : string) (h : heap) (a : ndarray).
Variables (gain : string) (source : ndarray) (t : Affine) (f : nat → float) (c : float).
Hypothesis Hdestination : h !! destination = Some a.
Hypothesis Hgain : gain_dict !! band_of raster = Some gain.
Hypothesis Hsource : rasterio_read raster = Ok source.
Hypothesis Htransform : source_transform ul lr (shape source) = Ok t.
Hypothesis Hreproject :
  reproject source a t "epsg:4326" dst_transform dst_crs resampling = Ok f.
Hypothesis Hcoefficient : coefficient_of (band_of raster) gain = Ok c.

(** X9. The step of a raster of one of the bands "10" to "14" returns normally
    and writes nothing into the output array. *)
Lemma thermal_band_is_skipped :
  band_of raster ∈ ["10"; "11"; "12"; "13"; "14"] →
  is_Some (h !! aster_array) →
  ∃ h', process_band destination aster_array dst_transform dst_crs resampling
          false solar_direction gain_dict ul lr d raster h = (Ok tt, h') ∧
        h' !! aster_array = h !! aster_array.
Proof using All.
  intros Hin Harr.
  assert (∃ index, index_dict !! band_of raster = Some index ∧
                   band_of raster ∉ take 10 band_index) as (index & Hi & Hout).
  { repeat (apply elem_of_cons in Hin as [Hband|Hin];
            [rewrite Hband; eexists; split; [vm_compute; reflexivity|];
             apply (proj1 (bool_decide_eq_false _)); vm_compute; reflexivity|]).
    by apply elem_of_nil in Hin. }
  erewrite process_band_run by (done || by apply getitem_Ok).
  rewrite bool_decide_false by done. eexists. split; [done|].
  by apply insert_fresh_lookup.
Qed.

(** The step of a raster of band "3B" raises a KeyError: the band is among
    the first ten and has no irradiance. *)
Lemma band_3B_raises :
  band_of raster = "3B" →
  ∃ h', process_band destination aster_array dst_transform dst_crs resampling
          false solar_direction gain_dict ul lr d raster h
        = (Raise (KeyError "3B"), h').
Proof using All.
  intros Hband.
  erewrite process_band_run with (index := 2%nat)
    by (done || (by apply getitem_Ok) || by rewrite Hband).
  rewrite Hband. eexists. reflexivity.
Qed.

End SkippedBands.

(** C2 fails on band "3B": in reflectance mode a scene with a raster of band
    "3B" aborts with a KeyError when the loop reaches it, although the same
    scene converts in radiance mode. *)
Theorem band_3B_aborts_reflectance_mode :
  (Demo.convert "scene_3B.hdf" false).1 = Raise (KeyError "3B") ∧
  is_ok (Demo.convert "scene_3B.hdf" true).1 = true.
Proof. vm_compute. split; reflexivity. Qed.

(** * Further properties of the conversion *)

(** ** Runs that return, read backwards *)

Section Returned.
Context `{Platform}.
Variables (aster_file : string) (destination : loc).
Variables (dst_transform : Affine) (dst_crs : CRS) (resampling : Resampling).
Variables (return_radiance : bool).

Local Abbreviation run :=
  (process_aster_dataset aster_file destination dst_transform dst_crs
     resampling return_radiance).
Local Abbreviation bands := (if return_radiance then 15 else 10)%nat.

(** A conversion that returns has opened its file, read its metadata and
    found a two-dimensional destination. *)
Lemma process_aster_dataset_returned h out h' :
  run h = (Ok out, h') →
  ∃ aster sc a m n,
    gdal_Open aster_file = Some aster ∧ scene_constants aster = Ok sc ∧
    h !! destination = Some a ∧ shape a = [m; n].
Proof.
  unfold process_aster_dataset. unfold bind at 1, lift at 1.
  destruct (gdal_Open aster_file) as [aster|]; [|done].
  unfold bind at 1, expand_dims_repeat, bind at 1, load at 1.
  destruct (h !! destination) as [a|]; [|done].
  destruct (shape a) as [|m [|n [|]]] eqn:Hshape; try done.
  unfold alloc at 1, bind at 1, np_copy, bind at 1, load at 1.
  rewrite lookup_insert_eq. unfold alloc at 1, bind at 1, lift at 1.
  destruct (scene_constants aster) as [sc|] eqn:Hsc; [|done].
  intros _. by exists aster, sc, a, m, n.
Qed.

(** Every raster of a loop that returns has had a step that returned. *)
Lemma process_bands_returned solar_direction gain_dict ul lr d aster_array
    rasters h h' :
  process_bands destination aster_array dst_transform dst_crs resampling
    return_radiance solar_direction gain_dict ul lr d rasters h = (Ok tt, h') →
  ∀ r, r ∈ rasters →
    ∃ h1 h2, process_band destination aster_array dst_transform dst_crs
               resampling return_radiance solar_direction gain_dict ul lr d r h1
             = (Ok tt, h2).
Proof.
  revert h. induction rasters as [|raster rest IH]; intros h Hrun r Hr.
  - by apply elem_of_nil in Hr.
  - simpl in Hrun. unfold bind in Hrun.
    destruct (process_band destination aster_array dst_transform dst_crs
                resampling return_radiance solar_direction gain_dict ul lr d
                raster h) as [[[]|e] h1] eqn:Hstep; [|done].
    apply elem_of_cons in Hr as [->|Hr]; [by exists h, h1|]. by eapply IH.
Qed.

Lemma get3_initial_output a m n b i j k :
  shape a = [m; n] → (i < m)%nat → (j < n)%nat → (k < b)%nat →
  get3 {| shape := [m; n; b]; data := data a ≫= replicate b |} i j k = get2 a i j.
Proof.
  intros Hs Hi Hj Hk. unfold get3, get2. simpl. rewrite Hs.
  rewrite !decide_True by done. by apply lookup_bind_replicate.
Qed.

Lemma untouched_slot h aster a m n out h' i j k :
  gdal_Open aster_file = Some aster →
  h !! destination = Some a → shape a = [m; n] →
  (∀ r, r ∈ raster_list_of (GetSubDatasets aster) →
        index_dict !! band_of r ≠ Some k) →
  run h = (Ok out, h') →
  (i < m)%nat → (j < n)%nat → (k < bands)%nat →
  ∃ arr, h' !! out = Some arr ∧ get3 arr i j k = get2 a i j.
Proof.
  intros Ho Ha Hs Hnone Hrun Hi Hj Hk.
  destruct (process_aster_dataset_returned h out h' Hrun)
    as (aster' & sc & a' & m' & n' & Ho' & Hsc & Ha' & Hs').
  assert (aster' = aster) as -> by congruence. clear Ho' Ha' Hs' a' m' n'.
  rewrite (process_aster_dataset_start aster_file destination dst_transform
             dst_crs resampling return_radiance h aster sc a m n Ho Hsc Ha Hs)
    in Hrun.
  cbv zeta in Hrun.
  set (rep := {| shape := [m; n; bands]; data := data a ≫= replicate bands |}) in *.
  set (h1 := <[fresh (dom h) := rep]> h) in *.
  set (aa := fresh (dom h1)) in *. set (h2 := <[aa := rep]> h1) in *.
  assert (h2 !! aa = Some rep) as Haa by (unfold h2; by rewrite lookup_insert_eq).
  pose proof (process_bands_evolves destination aa dst_transform dst_crs resampling
    return_radiance (sc_solar_direction sc) (sc_gain_dict sc) (sc_ul sc) (sc_lr sc)
    (earth_sun_distance (sc_doy sc)) (raster_list_of (GetSubDatasets aster)) h2
    (ltac:(by eexists))) as E.
  unfold wp in E. unfold bind in Hrun.
  destruct (process_bands destination aa dst_transform dst_crs resampling
    return_radiance (sc_solar_direction sc) (sc_gain_dict sc) (sc_ul sc) (sc_lr sc)
    (earth_sun_distance (sc_doy sc)) (raster_list_of (GetSubDatasets aster)) h2)
    as [[[]|e] h3]; [|done].
  simpl in E. destruct E as [_ A].
  destruct (A rep Haa) as (arr & Harr & _ & _ & G).
  unfold ret in Hrun. injection Hrun as <- <-.
  exists arr. split; [done|]. rewrite G.
  - by apply get3_initial_output.
  - intros (r & Hr & Hrk). by apply (Hnone r Hr).
Qed.

(** In reflectance mode the step of a raster of band "3B" never returns. *)
Lemma band_3B_step_fails solar_direction gain_dict ul lr d aster_array raster h :
  band_of raster = "3B" →
  (process_band destination aster_array dst_transform dst_crs resampling false
     solar_direction gain_dict ul lr d raster h).1 ≠ Ok tt.
Proof.
  intros Hband.
  assert (wp (process_band destination aster_array dst_transform dst_crs
                resampling false solar_direction gain_dict ul lr d raster) h
             (λ r _, r ≠ Ok tt)) as Hwp; [|exact Hwp].
  unfold process_band. rewrite Hband.
  wp_step; [|done]. wp_step; [|done]. wp_step; [|done]. wp_step; [|done].
  unfold np_copy. apply wp_bind. wp_step; [|done]. wp_step.
  unfold reproject_into. apply wp_bind. apply wp_bind, wp_load.
  rewrite lookup_insert_eq. wp_step; [|done]. wp_step.
  apply wp_bind, wp_load. rewrite lookup_insert_eq. wp_step; [|done].
  rewrite bool_decide_true
    by (apply (proj1 (bool_decide_eq_true _)); vm_compute; reflexivity).
  apply wp_bind, wp_lift.
  replace (getitem irradiance_dict "3B") with (@Raise float (KeyError "3B"))
    by (vm_compute; reflexivity).
  done.
Qed.

(** X1. The slot of a band that no raster of the scene has keeps, in the
    returned array, the values of the destination. *)
Theorem unwritten_slot_keeps_fill h aster a m n out h' i j k :
  gdal_Open aster_file = Some aster →
  h !! destination = Some a → shape a = [m; n] →
  (∀ r, r ∈ raster_list_of (GetSubDatasets aster) →
        index_dict !! band_of r ≠ Some k) →
  run h = (Ok out, h') →
  (i < m)%nat → (j < n)%nat → (k < bands)%nat →
  ∃ arr, h' !! out = Some arr ∧ get3 arr i j k = get2 a i j.
Proof. apply untouched_slot. Qed.

End Returned.

(** X2. In reflectance mode the slot of band "3B" (index 2) of a returned array
    holds the values of the destination: a scene with a raster of that band
    does not convert. *)
Theorem reflectance_keeps_fill_for_3B `{Platform} aster_file destination
    dst_transform dst_crs resampling (h : heap) a m n out h' i j :
  h !! destination = Some a → shape a = [m; n] →
  process_aster_dataset aster_file destination dst_transform dst_crs resampling
    false h = (Ok out, h') →
  (i < m)%nat → (j < n)%nat →
  ∃ arr, h' !! out = Some arr ∧ get3 arr i j 2 = get2 a i j.
Proof.
  intros Ha Hs Hrun Hi Hj.
  destruct (process_aster_dataset_returned _ _ _ _ _ _ h out h' Hrun)
    as (aster & sc & a' & m' & n' & Ho & Hsc & Ha' & Hs').
  eapply (untouched_slot aster_file destination dst_transform dst_crs resampling
            false h aster a m n out h' i j 2); try done; [|lia].
  intros r Hr Hindex.
  assert (band_of r = "3B") as Hband.
  { apply index_dict_band in Hindex. simpl in Hindex. congruence. }
  pose proof Hrun as Hrun'.
  rewrite (process_aster_dataset_start aster_file destination dst_transform
             dst_crs resampling false h aster sc a m n Ho Hsc Ha Hs) in Hrun'.
  cbv zeta in Hrun'. unfold bind in Hrun'.
  match type of Hrun' with
  | context [process_bands ?d ?aa ?t ?c ?rs ?rr ?sd ?gd ?ul ?lr ?dd ?l ?hh] =>
      destruct (process_bands d aa t c rs rr sd gd ul lr dd l hh)
        as [[[]|e] h3] eqn:Hloop; [|done];
      destruct (process_bands_returned destination t c rs rr sd gd ul lr dd aa
                  l hh h3 Hloop r Hr) as (hx & hy & Hstep);
      pose proof (band_3B_step_fails destination t c rs sd gd ul lr dd aa r hx
                    Hband) as Hfail
  end.
  rewrite Hstep in Hfail. by apply Hfail.
Qed.

(** ** The coefficient table *)

Lemma dict_of_lookup_None {V} (pairs : list (string * V)) k :
  k ∉ pairs.*1 → dict_of pairs !! k = None.
Proof.
  intros Hk. destruct (dict_of pairs !! k) as [v|] eqn:Hl; [|done].
  exfalso. apply Hk. apply dict_of_lookup in Hl.
  apply list_elem_of_fmap. by exists (k, v).
Qed.

(** Every band that has an index has a row of coefficients, one for each
    gain of the header. *)
Lemma ucc_dict_row band index :
  index_dict !! band = Some index →
  ∃ row, row ∈ ucc ∧ ucc_dict !! band = Some (dict_of (zip ucc_header row)).
Proof.
  intros Hindex.
  assert (is_Some (ucc_dict !! band)) as [rowd Hrow].
  { apply index_dict_band, list_elem_of_lookup_2 in Hindex.
    repeat (apply elem_of_cons in Hindex as [->|Hindex];
            [by vm_compute; eexists|]).
    by apply elem_of_nil in Hindex. }
  rewrite Hrow. pose proof Hrow as Hin. apply dict_of_lookup in Hin.
  apply elem_of_zip_r, list_elem_of_fmap_1 in Hin as (row & -> & Hin).
  by exists row.
Qed.

Lemma coefficient_of_gain band gain index :
  index_dict !! band = Some index →
  if bool_decide (gain ∈ ucc_header)
  then ∃ c, coefficient_of band gain = Ok c
  else coefficient_of band gain = Raise (KeyError gain).
Proof.
  intros Hindex. destruct (ucc_dict_row band index Hindex) as (row & Hrow & Hdict).
  assert (coefficient_of band gain = getitem (dict_of (zip ucc_header row)) gain)
    as -> by (unfold coefficient_of, getitem at 1; by rewrite Hdict).
  case_bool_decide as Hgain.
  - repeat (apply elem_of_cons in Hrow as [->|Hrow];
            [repeat (apply elem_of_cons in Hgain as [->|Hgain];
                     [eexists; vm_compute; reflexivity|]);
             by apply elem_of_nil in Hgain|]).
    by apply elem_of_nil in Hrow.
  - unfold getitem. rewrite dict_of_lookup_None; [done|].
    intros Hin. apply Hgain. apply list_elem_of_fmap_1 in Hin as ([k v] & -> & Hin).
    by apply elem_of_zip_l in Hin.
Qed.

(** X7. The coefficient of a band that has an index: found for the four gains of
    the header, a KeyError naming the gain for any other gain. *)
Theorem coefficient_lookup band gain index :
  index_dict !! band = Some index →
  if bool_decide (gain ∈ ucc_header)
  then ∃ c, coefficient_of band gain = Ok c
  else coefficient_of band gain = Raise (KeyError gain).
Proof. apply coefficient_of_gain. Qed.

Lemma coefficient_lookup_demo :
  coefficient_of "2" "LOW" = Raise (KeyError "LOW").
Proof.
  apply (coefficient_lookup "2" "LOW" 1). vm_compute. reflexivity.
Defined.

(** ** The first raster whose step fails *)

Section Failures.
Context `{Platform}.
Variables (aster_file : string) (destination : loc).
Variables (dst_transform : Affine) (dst_crs : CRS) (resampling : Resampling).
Variables (return_radiance : bool).

(** The scene, as in the section on the pixels of a band. *)
Variables (h : heap) (aster : Dataset) (sc : SceneConstants).
Variables (a : ndarray) (m n : nat).
Hypothesis Hopen : gdal_Open aster_file = Some aster.
Hypothesis Hmetadata : scene_constants aster = Ok sc.
Hypothesis Hdestination : h !! destination = Some a.
Hypothesis Hshape : shape a = [m; n].
Hypothesis Hlength : length (data a) = (m * n)%nat.

(** A raster of the scene before which every raster is ready. *)
Variables (before after : list string) (raster : string).
Hypothesis Hrasters :
  raster_list_of (GetSubDatasets aster) = (before ++ raster :: after)%list.
Hypothesis Hbefore :
  ∀ r, r ∈ before →
       band_ready dst_transform dst_crs resampling return_radiance
         (sc_solar_direction sc) (sc_gain_dict sc) (sc_ul sc) (sc_lr sc) a r.

Local Abbreviation run :=
  (process_aster_dataset aster_file destination dst_transform dst_crs
     resampling return_radiance).
Local Abbreviation step aster_array :=
  (process_band destination aster_array dst_transform dst_crs resampling
     return_radiance (sc_solar_direction sc) (sc_gain_dict sc) (sc_ul sc)
     (sc_lr sc) (earth_sun_distance (sc_doy sc))).

(** The conversion raises what the step of that raster raises. *)
Lemma conversion_raises e :
  (∀ aster_array hx,
     destination ≠ aster_array →
     loop_invariant destination aster_array return_radiance a m n hx →
     ∃ hx', step aster_array raster hx = (Raise e, hx')) →
  ∃ h', run h = (Raise e, h').
Proof using All.
  intros Hstep.
  rewrite (process_aster_dataset_start aster_file destination dst_transform
             dst_crs resampling return_radiance h aster sc a m n Hopen Hmetadata
             Hdestination Hshape).
  cbv zeta. rewrite Hrasters.
  set (rep := {| shape := [m; n; if return_radiance then 15 else 10]%nat;
                 data := data a ≫= replicate (if return_radiance then 15 else 10)%nat |}).
  set (h1 := <[fresh (dom h) := rep]> h).
  set (aa := fresh (dom h1)). set (h2 := <[aa := rep]> h1).
  assert (is_Some (h1 !! destination)) as Hs1
    by (unfold h1; rewrite insert_fresh_lookup; by eexists).
  assert (destination ≠ aa) as Hne by (by apply fresh_ne).
  destruct (process_bands_ok destination aa dst_transform dst_crs resampling
              return_radiance (sc_solar_direction sc) (sc_gain_dict sc)
              (sc_ul sc) (sc_lr sc) (earth_sun_distance (sc_doy sc)) a m n
              Hshape Hlength Hne before h2) as (h3 & Hloop & Hinv); [|done|].
  { split.
    - unfold h2. rewrite lookup_insert_ne by done.
      unfold h1. rewrite insert_fresh_lookup; [done|by eexists].
    - exists rep. unfold h2. rewrite lookup_insert_eq. split; [done|].
      split; [done|]. simpl. rewrite length_bind_replicate. by rewrite Hlength. }
  destruct (Hstep aa h3 Hne Hinv) as (h4 & Hfail).
  exists h4. unfold bind at 1. rewrite process_bands_app. unfold bind at 1.
  rewrite Hloop. simpl. unfold bind at 1. by rewrite Hfail.
Qed.

(** X3. A raster whose name ends in a band that the tables do not have: the
    conversion raises a KeyError for that band. *)
Theorem unknown_band_aborts :
  index_dict !! band_of raster = None →
  ∃ h', run h = (Raise (KeyError (band_of raster)), h').
Proof using All.
  intros Hnone. apply conversion_raises. intros aa hx _ _. exists hx.
  unfold process_band, bind at 1, lift at 1, getitem. by rewrite Hnone.
Qed.

(** X4. A raster of a band for which the metadata gives no gain (the bands "10"
    to "14" always have one): the conversion raises a KeyError for that
    band. *)
Theorem missing_gain_aborts :
  is_Some (index_dict !! band_of raster) →
  sc_gain_dict sc !! band_of raster = None →
  ∃ h', run h = (Raise (KeyError (band_of raster)), h').
Proof using All.
  intros [index Hindex] Hnone. apply conversion_raises. intros aa hx _ _.
  exists hx. unfold process_band, bind at 1, lift at 1, getitem at 1.
  rewrite Hindex. unfold bind at 1, lift at 1, getitem. by rewrite Hnone.
Qed.

(** X5. A raster of a band whose gain, in the metadata, is not one of the four
    gains of the coefficient table: once the raster is read and reprojected,
    the conversion raises a KeyError for that gain. *)
Theorem unknown_gain_aborts index gain source t f :
  index_dict !! band_of raster = Some index →
  sc_gain_dict sc !! band_of raster = Some gain →
  rasterio_read raster = Ok source →
  source_transform (sc_ul sc) (sc_lr sc) (shape source) = Ok t →
  reproject source a t "epsg:4326" dst_transform dst_crs resampling = Ok f →
  gain ∉ ucc_header →
  ∃ h', run h = (Raise (KeyError gain), h').
Proof using All.
  intros Hindex Hgain Hsource Ht Hf Hout. apply conversion_raises.
  intros aa hx _ (Hd & _).
  pose proof (coefficient_of_gain (band_of raster) gain index Hindex) as Hc.
  rewrite bool_decide_false in Hc by done.
  eexists. unfold process_band, bind at 1, lift at 1.
  rewrite (getitem_Ok _ _ _ Hindex). unfold bind at 1, lift at 1.
  rewrite (getitem_Ok _ _ _ Hgain). unfold bind at 1, lift at 1. rewrite Hsource.
  unfold bind at 1, lift at 1. rewrite Ht.
  unfold bind at 1, np_copy, bind at 1, load at 1. rewrite Hd.
  unfold alloc, bind at 1, reproject_into, bind at 1, load at 1.
  rewrite lookup_insert_eq. unfold bind at 1, lift at 1. rewrite Hf.
  unfold store, bind at 1, load at 1. rewrite lookup_insert_eq.
  unfold bind at 1, lift at 1. rewrite Hc. reflexivity.
Qed.

(** X6. In reflectance mode, a raster of band "3B" whose lookups and
    reprojection succeed: the conversion raises a KeyError for "3B", the band
    being among the first ten and having no irradiance. *)
Theorem band_3B_aborts gain source t f c :
  return_radiance = false →
  band_of raster = "3B" →
  sc_gain_dict sc !! band_of raster = Some gain →
  rasterio_read raster = Ok source →
  source_transform (sc_ul sc) (sc_lr sc) (shape source) = Ok t →
  reproject source a t "epsg:4326" dst_transform dst_crs resampling = Ok f →
  coefficient_of (band_of raster) gain = Ok c →
  ∃ h', run h = (Raise (KeyError "3B"), h').
Proof using All.
  intros Hrr Hband Hgain Hsource Ht Hf Hc. apply conversion_raises.
  intros aa hx _ (Hd & _). rewrite Hrr.
  by eapply (band_3B_raises destination aa dst_transform dst_crs resampling
               (sc_solar_direction sc) (sc_gain_dict sc) (sc_ul sc) (sc_lr sc)
               (earth_sun_distance (sc_doy sc)) raster hx a gain source t f c).
Qed.

End Failures.

(** Runs of the small platform for the properties above. *)

Ltac band_1_ready :=
  intros r Hr; apply list_elem_of_singleton in Hr; subst r;
  exists 0%nat, "HGH", Demo.band_1,
    (from_bounds (-50.5) (-20.5) (-50) (-20) 2 2),
    (Demo.copy_pixels Demo.band_1), 0.676;
  repeat split; try (vm_compute; reflexivity);
  right; right; split; eexists; vm_compute; reflexivity.

Lemma unwritten_slot_keeps_fill_demo :
  ∃ arr, (Demo.convert "scene.hdf" true).2 !! 3%positive = Some arr ∧
         get3 arr 1 0 4 = get2 Demo.fill 1 0.
Proof.
  eapply (@unwritten_slot_keeps_fill Demo.platform "scene.hdf" Demo.destination
            Demo.grid "epsg:32722" nearest true Demo.heap0 Demo.scene Demo.fill 2 2);
    try (vm_compute; reflexivity); try (vm_compute; lia).
  intros r Hr. vm_compute in Hr.
  repeat (apply elem_of_cons in Hr as [->|Hr]; [vm_compute; discriminate|]).
  by apply elem_of_nil in Hr.
Defined.

Lemma reflectance_keeps_fill_for_3B_demo :
  ∃ arr, (Demo.convert "scene.hdf" false).2 !! 3%positive = Some arr ∧
         get3 arr 0 1 2 = get2 Demo.fill 0 1.
Proof.
  eapply (@reflectance_keeps_fill_for_3B Demo.platform "scene.hdf" Demo.destination
            Demo.grid "epsg:32722" nearest Demo.heap0 Demo.fill 2 2);
    try (vm_compute; reflexivity); try (vm_compute; lia).
Defined.

Lemma unknown_band_aborts_demo :
  ∃ h', Cases.convert Cases.unknown_band true = (Raise (KeyError "15"), h').
Proof.
  eapply (@unknown_band_aborts (Cases.platform_of Cases.unknown_band) "scene.hdf"
            Demo.destination Demo.grid "epsg:32722" nearest true Demo.heap0
            Cases.unknown_band (Cases.constants Cases.unknown_band) Demo.fill 2 2)
    with (before := [Demo.raster_name "1"]) (raster := Demo.raster_name "15")
         (after := [Demo.raster_name "2"]);
    try (vm_compute; reflexivity).
  band_1_ready.
Defined.

Lemma missing_gain_aborts_demo :
  ∃ h', Cases.convert Cases.missing_gain false = (Raise (KeyError "2"), h').
Proof.
  eapply (@missing_gain_aborts (Cases.platform_of Cases.missing_gain) "scene.hdf"
            Demo.destination Demo.grid "epsg:32722" nearest false Demo.heap0
            Cases.missing_gain (Cases.constants Cases.missing_gain) Demo.fill 2 2)
    with (before := [Demo.raster_name "1"]) (raster := Demo.raster_name "2")
         (after := []);
    try (vm_compute; reflexivity).
  - band_1_ready.
  - eexists. vm_compute. reflexivity.
Defined.

Lemma unknown_gain_aborts_demo :
  ∃ h', Cases.convert Cases.unknown_gain true = (Raise (KeyError "LOW"), h').
Proof.
  eapply (@unknown_gain_aborts (Cases.platform_of Cases.unknown_gain) "scene.hdf"
            Demo.destination Demo.grid "epsg:32722" nearest true Demo.heap0
            Cases.unknown_gain (Cases.constants Cases.unknown_gain) Demo.fill 2 2)
    with (before := [Demo.raster_name "1"]) (raster := Demo.raster_name "2")
         (after := []) (source := Demo.band_2) (f := Demo.copy_pixels Demo.band_2);
    try (vm_compute; reflexivity).
  - band_1_ready.
  - apply (proj1 (bool_decide_eq_false _)). vm_compute. reflexivity.
Defined.

Lemma band_3B_aborts_demo :
  ∃ h', Demo.convert "scene_3B.hdf" false = (Raise (KeyError "3B"), h').
Proof.
  eapply (@band_3B_aborts Demo.platform "scene_3B.hdf"
            Demo.destination Demo.grid "epsg:32722" nearest false Demo.heap0
            Demo.scene_3B (Demo.constants Demo.scene_3B) Demo.fill 2 2)
    with (before := [Demo.raster_name "1"]) (raster := Demo.raster_name "3B")
         (after := [Demo.raster_name "2"]) (source := Demo.band_3B)
         (f := Demo.copy_pixels Demo.band_3B);
    try (vm_compute; reflexivity).
  band_1_ready.
Defined.

Lemma undefined_coefficient_output_demo :
  ∃ arr, (Demo.convert "scene_low_gain.hdf" true).2 !! 3%positive = Some arr ∧
         get3 arr 1 1 0 = Some np_nan.
Proof.
  eapply (@undefined_coefficient_output Demo.platform "scene_low_gain.hdf"
            Demo.destination Demo.grid "epsg:32722" nearest Demo.heap0
            Demo.scene_low_gain (Demo.constants Demo.scene_low_gain) Demo.fill 2 2)
    with (before := []) (raster := Demo.raster_name "1")
         (after := [Demo.raster_name "3B"; Demo.raster_name "2"])
         (gain := "LG2") (source := Demo.band_1)
         (f := Demo.copy_pixels Demo.band_1) (c := np_nan)
         (return_radiance := true);
    try (vm_compute; reflexivity); try (vm_compute; lia).
  intros r Hr.
  repeat (apply elem_of_cons in Hr as [->|Hr]; [vm_compute; discriminate|]).
  by apply elem_of_nil in Hr.
Defined.

Lemma thermal_band_is_skipped_demo :
  ∃ h', @process_band Demo.platform Demo.destination 2%positive Demo.grid
          "epsg:32722" nearest false [150.5; 60] {["10" := "NOR"]} [-50.5; -20]
          [-50; -20.5] 1 (Demo.raster_name "10")
          (<[2%positive := Demo.fill]> Demo.heap0) = (Ok tt, h') ∧
        h' !! 2%positive = <[2%positive := Demo.fill]> Demo.heap0 !! 2%positive.
Proof.
  eapply (@thermal_band_is_skipped Demo.platform Demo.destination 2%positive
            Demo.grid "epsg:32722" nearest [150.5; 60] {["10" := "NOR"]}
            [-50.5; -20] [-50; -20.5] 1 (Demo.raster_name "10")
            (<[2%positive := Demo.fill]> Demo.heap0) Demo.fill "NOR" Demo.band_10)
    with (f := Demo.copy_pixels Demo.band_10);
    try (vm_compute; reflexivity).
  - vm_compute. apply list_elem_of_here.
  - eexists. vm_compute. reflexivity.
Defined.

(** ** Digital number 1 *)

(** X10. A reprojected value of 1 gives a radiance of zero, for every band and
    gain whose coefficient is a number: the offset of line 191. *)
Theorem digital_number_one_is_zero_radiance band gain c :
  coefficient_of band gain = Ok c → PrimFloat.is_nan c = false →
  PrimFloat.eqb (radiance_pixel c 1) 0 = true.
Proof.
  unfold coefficient_of. intros Hc Hnan.
  apply rbind_Ok in Hc as (rowd & Hrow & Hc).
  apply getitem_Ok_inv, dict_of_lookup, elem_of_zip_r, list_elem_of_fmap_1
    in Hrow as (row & -> & Hrow).
  apply getitem_Ok_inv, dict_of_lookup, elem_of_zip_r in Hc.
  repeat (apply elem_of_cons in Hrow as [->|Hrow];
          [repeat (apply elem_of_cons in Hc as [->|Hc];
                   [first [by vm_compute | by vm_compute in Hnan]|]);
           by apply elem_of_nil in Hc|]).
  by apply elem_of_nil in Hrow.
Qed.

Lemma digital_number_one_is_zero_radiance_demo :
  PrimFloat.eqb (radiance_pixel 0.006822 1) 0 = true.
Proof.
  apply (digital_number_one_is_zero_radiance "10" "NOR"); vm_compute; reflexivity.
Defined.

(** ** The day of the year of any date *)

(** A property of the integers from 0 below [n], checked one by one. *)
Lemma below_forallb (f : Z → bool) (n : nat) :
  forallb f (Z.of_nat <$> seq 0 n) = true →
  ∀ k, (0 ≤ k < Z.of_nat n)%Z → f k = true.
Proof.
  intros Hall k Hk. rewrite forallb_forall in Hall. apply Hall.
  apply list_elem_of_In, list_elem_of_fmap. exists (Z.to_nat k).
  split; [lia|]. apply elem_of_seq. lia.
Qed.

Lemma np_uint8_digits2 k : (0 ≤ k < 100)%Z → np_uint8 (digits2 k) = Ok k.
Proof.
  intros Hk.
  pose proof (below_forallb
    (λ k, match np_uint8 (digits2 k) with Ok k' => (k' =? k)%Z | Raise _ => false end)
    100 ltac:(vm_compute; reflexivity) k Hk) as Hf.
  cbv beta in Hf. destruct (np_uint8 (digits2 k)) as [k'|]; [|done].
  apply Z.eqb_eq in Hf. by subst.
Qed.

Lemma np_uint8_digits4 y :
  (0 ≤ y < 10000)%Z → np_uint8 (digits4 y) = Ok (y mod 256)%Z.
Proof.
  intros Hy.
  pose proof (below_forallb
    (λ y, match np_uint8 (digits4 y) with
          | Ok y' => (y' =? y mod 256)%Z
          | Raise _ => false
          end)
    (Z.to_nat 10000) ltac:(vm_compute; reflexivity) y ltac:(lia)) as Hf.
  cbv beta in Hf. destruct (np_uint8 (digits4 y)) as [y'|]; [|done].
  apply Z.eqb_eq in Hf. by subst.
Qed.

(** The three slices of lines 154. *)
Lemma date_text_slices y m d :
  str_slice 0 4 (date_text y m d) = digits4 y ∧
  str_slice 4 6 (date_text y m d) = digits2 m ∧
  str_from 6 (date_text y m d) = digits2 d.
Proof. done. Qed.

Lemma day_of_year_wraps y m d :
  (0 ≤ y < 10000)%Z → (0 ≤ m < 100)%Z → (0 ≤ d < 100)%Z →
  day_of_year (date_text y m d) = tm_yday (y mod 256) m d.
Proof.
  intros Hy Hm Hd. unfold day_of_year.
  destruct (date_text_slices y m d) as (-> & -> & ->).
  by rewrite np_uint8_digits4, !np_uint8_digits2.
Qed.

Lemma tm_yday_same_calendar y y' m d :
  is_leap y = is_leap y' → (1 ≤ y ≤ 9999)%Z → (1 ≤ y' ≤ 9999)%Z →
  tm_yday y m d = tm_yday y' m d.
Proof.
  intros Hleap Hy Hy'.
  assert (∀ k, days_in_month y k = days_in_month y' k) as Hdays
    by (intros k; unfold days_in_month; by rewrite Hleap).
  unfold tm_yday, days_before_month. rewrite Hdays.
  replace (days_in_month y <$> (Z.of_nat <$> seq 1 (Z.to_nat (m - 1))))
    with (days_in_month y' <$> (Z.of_nat <$> seq 1 (Z.to_nat (m - 1))))
    by (apply list_fmap_ext; intros; by rewrite Hdays).
  replace ((1 <=? y) && (y <=? 9999))%Z with true by lia.
  by replace ((1 <=? y') && (y' <=? 9999))%Z with true by lia.
Qed.

(** X11. For every date of the years 1993 to 2047, written as eight digits, the
    conversion finds the day of the year that the calendar gives (and the
    same ValueError for a day that the month does not have): the 8-bit year
    keeps the leap years of that range (1992, read as the year 200, is the
    nearest year that it does not keep). *)
Theorem day_of_year_1993_2047 y m d :
  (1993 ≤ y ≤ 2047)%Z → (0 ≤ m < 100)%Z → (0 ≤ d < 100)%Z →
  day_of_year (date_text y m d) = tm_yday y m d.
Proof.
  intros Hy Hm Hd. rewrite day_of_year_wraps by lia.
  pose proof (below_forallb
    (λ k, let y := (1993 + k)%Z in
          Bool.eqb (is_leap (y mod 256)) (is_leap y) && (1 <=? y mod 256)%Z)
    55 ltac:(vm_compute; reflexivity) (y - 1993)%Z ltac:(lia)) as Hf.
  cbv beta zeta in Hf.
  apply andb_true_iff in Hf as [Hleap Hpos]. apply Bool.eqb_prop in Hleap.
  replace (1993 + (y - 1993))%Z with y in Hleap, Hpos by lia.
  apply tm_yday_same_calendar; [done| |lia].
  pose proof (Z.mod_pos_bound y 256). lia.
Qed.

Lemma day_of_year_1993_2047_demo :
  day_of_year (date_text 2016 12 31) = tm_yday 2016 12 31.
Proof. apply day_of_year_1993_2047; lia. Defined.

(** X12. For a date of a year that is a multiple of 256 (2048 is the next one)
    the conversion raises a ValueError: the year read is 0. *)
Theorem day_of_year_fails_in_2048 y m d :
  (0 ≤ y < 10000)%Z → (y mod 256 = 0)%Z → (0 ≤ m < 100)%Z → (0 ≤ d < 100)%Z →
  day_of_year (date_text y m d) = Raise ValueError.
Proof.
  intros Hy Hmod Hm Hd. rewrite day_of_year_wraps by lia. by rewrite Hmod.
Qed.

Lemma day_of_year_fails_in_2048_demo :
  day_of_year (date_text 2048 6 15) = Raise ValueError.
Proof. apply day_of_year_fails_in_2048; first [lia | reflexivity]. Defined.

(** ** Reading the gains from the metadata *)

Lemma append_cons c s t : String c s +:+ t = String c (s +:+ t).
Proof. reflexivity. Qed.

Lemma append_empty_r s : s +:+ "" = s.
Proof. induction s as [|c s IH]; [done|]. by rewrite append_cons, IH. Qed.

Lemma append_associative s1 s2 s3 : (s1 +:+ s2) +:+ s3 = s1 +:+ (s2 +:+ s3).
Proof. induction s1 as [|c s1 IH]; [done|]. by rewrite !append_cons, IH. Qed.

Lemma str_in_char c b s :
  str_in (String c "") (String b s) = Ascii.eqb c b || str_in (String c "") s.
Proof. simpl. by destruct (Ascii.eqb c b). Qed.

Lemma str_in_char_app c x y :
  str_in (String c "") (x +:+ y) = str_in (String c "") x || str_in (String c "") y.
Proof.
  induction x as [|b x IH].
  - simpl. by destruct y.
  - change (String b x +:+ y) with (String b (x +:+ y)).
    rewrite !str_in_char, IH. by rewrite orb_assoc.
Qed.

Lemma startswith_app sep y : startswith sep (sep +:+ y) = true.
Proof.
  induction sep as [|c sep IH]; [done|]. simpl. by rewrite Ascii.eqb_refl.
Qed.

Lemma split_from_skip sep s1 cur y :
  split_from sep (String.length s1) cur (s1 +:+ y) = split_from sep 0 cur y.
Proof. induction s1 as [|c s1 IH]; [done|]. simpl. apply IH. Qed.

(** Splitting at the first separator, when its first character does not
    occur before it. *)
Lemma split_from_at c0 sep' x y cur :
  str_in (String c0 "") x = false →
  split_from (String c0 sep') 0 cur (x +:+ (String c0 sep' +:+ y)) =
    (cur +:+ x) :: split_from (String c0 sep') 0 "" y.
Proof.
  revert cur. induction x as [|b x IH]; intros cur Hx.
  - rewrite append_empty_r.
    change ("" +:+ (String c0 sep' +:+ y)) with (String c0 (sep' +:+ y)).
    cbn [split_from].
    change (String c0 (sep' +:+ y)) with (String c0 sep' +:+ y).
    rewrite startswith_app. f_equal. simpl. rewrite Nat.sub_0_r.
    apply split_from_skip.
  - rewrite str_in_char in Hx. apply orb_false_iff in Hx as [Hb Hx].
    change (String b x +:+ (String c0 sep' +:+ y))
      with (String b (x +:+ (String c0 sep' +:+ y))).
    cbn [split_from startswith]. rewrite Hb. rewrite IH by done.
    f_equal. rewrite append_associative. done.
Qed.

(** No separator: one piece. *)
Lemma split_from_none c0 sep' s cur :
  str_in (String c0 "") s = false →
  split_from (String c0 sep') 0 cur s = [cur +:+ s].
Proof.
  revert cur. induction s as [|b s IH]; intros cur Hs.
  - by rewrite append_empty_r.
  - rewrite str_in_char in Hs. apply orb_false_iff in Hs as [Hb Hs].
    cbn [split_from startswith]. rewrite Hb. rewrite IH by done.
    by rewrite append_associative.
Qed.

Lemma str_replace_app old new x y :
  str_replace old new (x +:+ y) = str_replace old new x +:+ str_replace old new y.
Proof.
  induction x as [|b x IH]; [done|]. simpl.
  destruct (Ascii.eqb b old); rewrite IH; [|done].
  by rewrite append_associative.
Qed.

(** Dropping characters brings no new character. *)
Lemma str_replace_keeps_out old c s :
  str_in (String c "") s = false →
  str_in (String c "") (str_replace old "" s) = false.
Proof.
  induction s as [|b s IH]; [done|]. intros Hs.
  rewrite str_in_char in Hs. apply orb_false_iff in Hs as [Hb Hs].
  cbn [str_replace]. destruct (Ascii.eqb b old).
  - by apply IH.
  - rewrite str_in_char, Hb. by apply IH.
Qed.

(** Line 147 on one well-formed gain line. *)
Lemma gain_line_entry key label gain :
  well_formed_line (GainLine key label gain) →
  rbind (getidx (str_split "=" (str_replace "0" "" (line_text (GainLine key label gain)))) 1)
        (λ v, Ok (str_split ", " v))
  = Ok [str_replace "0" "" label; str_replace "0" "" gain].
Proof.
  intros (_ & Hk & Hl & Hg & Hcl & Hcg). unfold line_text.
  rewrite !str_replace_app.
  change (str_replace "0" "" "=") with "=".
  change (str_replace "0" "" ", ") with ", ".
  set (k := str_replace "0" "" key). set (l := str_replace "0" "" label).
  set (g := str_replace "0" "" gain).
  assert (str_in "=" k = false) as Hk' by (by apply str_replace_keeps_out).
  assert (str_in "=" l = false) as Hl' by (by apply str_replace_keeps_out).
  assert (str_in "=" g = false) as Hg' by (by apply str_replace_keeps_out).
  assert (str_in "," l = false) as Hcl' by (by apply str_replace_keeps_out).
  assert (str_in "," g = false) as Hcg' by (by apply str_replace_keeps_out).
  unfold str_split. rewrite (split_from_at "=" "" k) by done.
  rewrite (split_from_none "=" "") by (by rewrite !str_in_char_app, Hl', Hg').
  change (rbind (getidx ["" +:+ k; "" +:+ (l +:+ (", " +:+ g))] 1)
            (λ v, Ok (split_from ", " 0 "" v)))
    with (Ok (split_from ", " 0 "" (l +:+ (", " +:+ g)))).
  change ("" +:+ l) with l. change ("" +:+ g) with g.
  rewrite (split_from_at "," " " l) by done.
  by rewrite (split_from_none "," " ") by done.
Qed.

Lemma gain_entries_of_lines ls :
  Forall well_formed_line ls →
  gain_entries (line_text <$> ls) =
    Ok ((λ kv, [kv.1; kv.2]) <$> gains_of ls).
Proof.
  unfold gain_entries, gains_of. induction 1 as [|l ls Hl Hls IH]; [done|].
  rewrite fmap_cons, bind_cons. cbn [List.filter].
  destruct l as [key label gain|text].
  - destruct Hl as (Hgain & Hrest). rewrite Hgain. cbn [rmap].
    rewrite gain_line_entry by done. cbn [rbind]. rewrite IH. done.
  - simpl in Hl. cbn [line_text]. rewrite Hl. by rewrite IH.
Qed.

(** X13. The gain dict of a scene whose metadata is well formed: what the gain
    lines say, a later line replacing an earlier one of the same label, then
    the bands "10" to "14" at NOR; the zeros of the labels and of the gains
    are dropped ("01" is band "1"). *)
Theorem gain_dict_of_lines ls :
  Forall well_formed_line ls →
  make_gain_dict (line_text <$> ls) =
    Ok (foldl (λ g b, <[b := "NOR"]> g) (dict_of (gains_of ls))
          ["10"; "11"; "12"; "13"; "14"]).
Proof.
  intros Hls. unfold make_gain_dict. rewrite gain_entries_of_lines by done.
  cbn [rbind]. unfold dict_of_lists.
  assert (rmap (λ e : list string,
                  match e with [k; v] => Ok (k, v) | _ => Raise ValueError end)
               ((λ kv : string * string, [kv.1; kv.2]) <$> gains_of ls)
          = Ok (gains_of ls)) as ->; [|done].
  induction (gains_of ls) as [|[k v] l IH]; [done|].
  rewrite fmap_cons. cbn [rmap rbind fst snd]. by rewrite IH.
Qed.

Lemma gain_dict_of_lines_demo :
  make_gain_dict
    (line_text <$> [OtherLine "CALENDARDATE=20170615"; GainLine "GAIN.1" "01" "HGH";
                    GainLine "GAIN.3" "3N" "NOR"]) =
    Ok (foldl (λ g b, <[b := "NOR"]> g) (dict_of [("1", "HGH"); ("3N", "NOR")])
          ["10"; "11"; "12"; "13"; "14"]).
Proof.
  apply (gain_dict_of_lines
           [OtherLine "CALENDARDATE=20170615"; GainLine "GAIN.1" "01" "HGH";
            GainLine "GAIN.3" "3N" "NOR"]).
  repeat constructor.
Defined.

(** ** The order of the rasters *)

Lemma index_dict_first_ten_inv band index :
  index_dict !! band = Some index → (index < 10)%nat → band ∈ take 10 band_index.
Proof.
  intros Hl%index_dict_band Hlt. apply list_elem_of_lookup. exists index.
  rewrite lookup_take_lt by done. exact Hl.
Qed.

(** In a list of rasters of distinct bands, no raster after a given one has
    its band. *)
Lemma split_at_band (rasters : list string) r :
  r ∈ rasters → NoDup (band_of <$> rasters) →
  ∃ before after, rasters = (before ++ r :: after)%list ∧
                  ∀ r', r' ∈ after → band_of r' ≠ band_of r.
Proof.
  intros Hr Hnd. apply list_elem_of_split in Hr as (before & after & ->).
  exists before, after. split; [done|]. intros r' Hr' Heq.
  rewrite fmap_app, fmap_cons in Hnd.
  apply NoDup_app in Hnd as (_ & _ & Hnd). apply NoDup_cons in Hnd as [Hnot _].
  apply Hnot. rewrite <- Heq. by apply list_elem_of_fmap_2.
Qed.

Section RasterOrder.
Context `{Platform}.
Variables (destination : loc).
Variables (dst_transform : Affine) (dst_crs : CRS) (resampling : Resampling).
Variables (return_radiance : bool).
Variables (h : heap) (sc : SceneConstants) (a : ndarray) (m n : nat).
Hypothesis Hdestination : h !! destination = Some a.
Hypothesis Hshape : shape a = [m; n].
Hypothesis Hlength : length (data a) = (m * n)%nat.

Local Abbreviation run aster_file :=
  (process_aster_dataset aster_file destination dst_transform dst_crs
     resampling return_radiance).
Local Abbreviation bands := (if return_radiance then 15 else 10)%nat.
Local Abbreviation ready :=
  (band_ready dst_transform dst_crs resampling return_radiance
     (sc_solar_direction sc) (sc_gain_dict sc) (sc_ul sc) (sc_lr sc) a).

(** A scene whose rasters are all ready converts. *)
Lemma conversion_returns aster_file aster :
  gdal_Open aster_file = Some aster →
  scene_constants aster = Ok sc →
  (∀ r, r ∈ raster_list_of (GetSubDatasets aster) → ready r) →
  ∃ out h' arr, run aster_file h = (Ok out, h') ∧ h' !! out = Some arr.
Proof using Hdestination Hshape Hlength.
  intros Ho Hsc Hready.
  assert (∃ out h', run aster_file h = (Ok out, h')) as (out & h' & Hrun).
  { rewrite (process_aster_dataset_start aster_file destination dst_transform
               dst_crs resampling return_radiance h aster sc a m n Ho Hsc
               Hdestination Hshape).
    cbv zeta.
    set (rep := {| shape := [m; n; bands]; data := data a ≫= replicate bands |}).
    set (h1 := <[fresh (dom h) := rep]> h).
    set (aa := fresh (dom h1)). set (h2 := <[aa := rep]> h1).
    assert (is_Some (h1 !! destination)) as Hs1
      by (unfold h1; rewrite insert_fresh_lookup; by eexists).
    assert (destination ≠ aa) as Hne by (by apply fresh_ne).
    destruct (process_bands_ok destination aa dst_transform dst_crs resampling
                return_radiance (sc_solar_direction sc) (sc_gain_dict sc)
                (sc_ul sc) (sc_lr sc) (earth_sun_distance (sc_doy sc)) a m n
                Hshape Hlength Hne (raster_list_of (GetSubDatasets aster)) h2)
      as (h3 & Hloop & _); [|done|].
    - split.
      + unfold h2. rewrite lookup_insert_ne by done.
        unfold h1. rewrite insert_fresh_lookup; [done|by eexists].
      + exists rep. unfold h2. rewrite lookup_insert_eq. split; [done|].
        split; [done|]. simpl. rewrite length_bind_replicate. by rewrite Hlength.
    - exists aa, h3. unfold bind. by rewrite Hloop. }
  exists out, h'.
  pose proof (wp_run _ _ _ _ _
    (process_aster_dataset_frame aster_file destination dst_transform dst_crs
       resampling return_radiance h) Hrun) as [_ Hout].
  destruct (Hout out eq_refl) as (_ & a' & m' & n' & arr & _ & _ & Harr & _).
  by exists arr.
Qed.

(** The pixels of the slot of a ready raster, in a scene of distinct bands. *)
Lemma ready_pixel aster_file aster r index out h' arr i j :
  gdal_Open aster_file = Some aster →
  scene_constants aster = Ok sc →
  NoDup (band_of <$> raster_list_of (GetSubDatasets aster)) →
  r ∈ raster_list_of (GetSubDatasets aster) → ready r →
  index_dict !! band_of r = Some index → (index < bands)%nat →
  run aster_file h = (Ok out, h') → h' !! out = Some arr →
  (i < m)%nat → (j < n)%nat →
  ∃ source t f c g,
    rasterio_read r = Ok source ∧
    source_transform (sc_ul sc) (sc_lr sc) (shape source) = Ok t ∧
    reproject source a t "epsg:4326" dst_transform dst_crs resampling = Ok f ∧
    (∃ gain, sc_gain_dict sc !! band_of r = Some gain ∧
             coefficient_of (band_of r) gain = Ok c) ∧
    writes_pixel return_radiance (earth_sun_distance (sc_doy sc))
      (sc_solar_direction sc) (band_of r) c g ∧
    get3 arr i j index = Some (g (f (i * n + j)%nat)).
Proof using Hdestination Hshape Hlength.
  intros Ho Hsc Hnd Hr (index' & gain & source & t & f & c & Hi' & Hg & Hsrc & Ht
                        & Hf & Hc & Hmode) Hidx Hlt Hrun Harr Hi Hj.
  assert (index' = index) as -> by congruence.
  assert (∃ g, writes_pixel return_radiance (earth_sun_distance (sc_doy sc))
                 (sc_solar_direction sc) (band_of r) c g) as [g Hw].
  { unfold writes_pixel. destruct return_radiance; [by eexists|].
    pose proof (index_dict_first_ten_inv _ _ Hidx Hlt) as Hten.
    destruct Hmode as [?|[?|[[irr Hirr] [elev Helev]]]]; [done..|].
    eexists. split; [done|]. by exists irr, elev. }
  destruct (split_at_band _ r Hr Hnd) as (before & after & Hl & Hafter).
  destruct (output_pixel aster_file destination dst_transform dst_crs resampling
              return_radiance h aster sc a m n before r after index gain source
              t f c g out h' Ho Hsc Hdestination Hshape Hlength Hl Hafter Hidx
              Hg Hsrc Ht Hf Hc Hw Hrun) as (arr' & Harr' & Hpix).
  assert (arr' = arr) as -> by congruence.
  exists source, t, f, c, g. repeat split; try done; [by exists gain|by apply Hpix].
Qed.

Variables (file1 file2 : string) (aster1 aster2 : Dataset).
Hypothesis Hopen1 : gdal_Open file1 = Some aster1.
Hypothesis Hopen2 : gdal_Open file2 = Some aster2.
Hypothesis Hmetadata1 : scene_constants aster1 = Ok sc.
Hypothesis Hmetadata2 : scene_constants aster2 = Ok sc.
Hypothesis Hsame :
  raster_list_of (GetSubDatasets aster1) ≡ₚ raster_list_of (GetSubDatasets aster2).
Hypothesis Hdistinct : NoDup (band_of <$> raster_list_of (GetSubDatasets aster1)).
Hypothesis Hready : ∀ r, r ∈ raster_list_of (GetSubDatasets aster1) → ready r.

(** X14. Two files of the same scene (same metadata) whose sub-datasets are
    the same rasters in another order, one raster for each band at most, all
    of them ready: both conversions return, and the two arrays hold the same
    value at every position. The order in which the file lists its bands
    does not matter. *)
Theorem raster_order_is_irrelevant :
  ∃ out1 h1 arr1 out2 h2 arr2,
    run file1 h = (Ok out1, h1) ∧ h1 !! out1 = Some arr1 ∧
    run file2 h = (Ok out2, h2) ∧ h2 !! out2 = Some arr2 ∧
    ∀ i j k, (i < m)%nat → (j < n)%nat → (k < bands)%nat →
             get3 arr1 i j k = get3 arr2 i j k.
Proof using All.
  assert (∀ r, r ∈ raster_list_of (GetSubDatasets aster2) → ready r) as Hready2.
  { intros r Hr. apply Hready. by rewrite Hsame. }
  assert (NoDup (band_of <$> raster_list_of (GetSubDatasets aster2))) as Hdistinct2.
  { by rewrite <- Hsame. }
  destruct (conversion_returns file1 aster1 Hopen1 Hmetadata1 Hready)
    as (out1 & h1 & arr1 & Hrun1 & Harr1).
  destruct (conversion_returns file2 aster2 Hopen2 Hmetadata2 Hready2)
    as (out2 & h2 & arr2 & Hrun2 & Harr2).
  exists out1, h1, arr1, out2, h2, arr2. repeat split; try done.
  intros i j k Hi Hj Hk.
  destruct (decide (Exists (λ r, index_dict !! band_of r = Some k)
                      (raster_list_of (GetSubDatasets aster1)))) as [Hex|Hno].
  - apply Exists_exists in Hex as (r & Hr & Hidx).
    assert (r ∈ raster_list_of (GetSubDatasets aster2)) as Hr2 by (by rewrite <- Hsame).
    destruct (ready_pixel file1 aster1 r k out1 h1 arr1 i j Hopen1 Hmetadata1
                Hdistinct Hr (Hready r Hr) Hidx Hk Hrun1 Harr1 Hi Hj)
      as (s1 & t1 & f1 & c1 & g1 & Hs1 & Ht1 & Hf1 & (gain1 & Hg1 & Hc1) & Hw1 & ->).
    destruct (ready_pixel file2 aster2 r k out2 h2 arr2 i j Hopen2 Hmetadata2
                Hdistinct2 Hr2 (Hready r Hr) Hidx Hk Hrun2 Harr2 Hi Hj)
      as (s2 & t2 & f2 & c2 & g2 & Hs2 & Ht2 & Hf2 & (gain2 & Hg2 & Hc2) & Hw2 & ->).
    assert (s2 = s1) as -> by congruence.
    assert (t2 = t1) as -> by congruence.
    assert (f2 = f1) as -> by congruence.
    assert (gain2 = gain1) as -> by congruence.
    assert (c2 = c1) as -> by congruence.
    assert (g2 = g1) as ->; [|done].
    unfold writes_pixel in Hw1, Hw2. destruct return_radiance; [congruence|].
    destruct Hw1 as (_ & irr1 & el1 & Hirr1 & Hel1 & Hg1').
    destruct Hw2 as (_ & irr2 & el2 & Hirr2 & Hel2 & Hg2').
    assert (irr2 = irr1) as Hirr by congruence.
    assert (el2 = el1) as Hel by congruence.
    rewrite Hg1', Hg2', Hirr, Hel. reflexivity.
  - pose proof (not_Exists_Forall _ _ Hno) as Hnone.
    rewrite Forall_forall in Hnone.
    destruct (untouched_slot file1 destination dst_transform dst_crs resampling
                return_radiance h aster1 a m n out1 h1 i j k Hopen1 Hdestination
                Hshape Hnone Hrun1 Hi Hj Hk) as (arr1' & Harr1' & Hfill1).
    assert (∀ r, r ∈ raster_list_of (GetSubDatasets aster2) →
                 index_dict !! band_of r ≠ Some k) as Hnone2.
    { intros r Hr. apply Hnone. by rewrite Hsame. }
    destruct (untouched_slot file2 destination dst_transform dst_crs resampling
                return_radiance h aster2 a m n out2 h2 i j k Hopen2 Hdestination
                Hshape Hnone2 Hrun2 Hi Hj Hk) as (arr2' & Harr2' & Hfill2).
    assert (arr1' = arr1) as Heq1 by congruence.
    assert (arr2' = arr2) as Heq2 by congruence.
    rewrite <- Heq1, <- Heq2, Hfill1, Hfill2. reflexivity.
Qed.

End RasterOrder.

Lemma raster_order_is_irrelevant_demo :
  ∃ out1 h1 arr1 out2 h2 arr2,
    @process_aster_dataset Cases.two_files "scene.hdf" Demo.destination
      Demo.grid "epsg:32722" nearest true Demo.heap0 = (Ok out1, h1) ∧
    h1 !! out1 = Some arr1 ∧
    @process_aster_dataset Cases.two_files "reordered.hdf" Demo.destination
      Demo.grid "epsg:32722" nearest true Demo.heap0 = (Ok out2, h2) ∧
    h2 !! out2 = Some arr2 ∧
    ∀ i j k, (i < 2)%nat → (j < 2)%nat → (k < 15)%nat →
             get3 arr1 i j k = get3 arr2 i j k.
Proof.
  apply (@raster_order_is_irrelevant Cases.two_files Demo.destination Demo.grid
           "epsg:32722" nearest true Demo.heap0
           (Cases.constants Cases.three_bands) Demo.fill 2 2
           ltac:(vm_compute; reflexivity) ltac:(reflexivity) ltac:(reflexivity)
           "scene.hdf" "reordered.hdf" Cases.three_bands Cases.three_bands_reordered
           ltac:(reflexivity) ltac:(reflexivity)
           ltac:(vm_compute; reflexivity) ltac:(vm_compute; reflexivity)).
  - symmetry.
    apply (Permutation_cons_append
             [Demo.raster_name "2"; Demo.raster_name "10"] (Demo.raster_name "1")).
  - apply (bool_decide_unpack _). vm_compute. exact I.
  - intros r Hr.
    change (r ∈ [Demo.raster_name "2"; Demo.raster_name "10"; Demo.raster_name "1"])
      in Hr.
    apply elem_of_cons in Hr as [->|Hr];
      [|apply elem_of_cons in Hr as [->|Hr];
        [|apply list_elem_of_singleton in Hr; subst r]].
    + exists 1%nat, "NOR", Demo.band_2,
        (from_bounds (-50.5) (-20.5) (-50) (-20) 2 2),
        (Demo.copy_pixels Demo.band_2), 1.415.
      repeat split; try (vm_compute; reflexivity). by left.
    + exists 10%nat, "NOR", Demo.band_10,
        (from_bounds (-50.5) (-20.5) (-50) (-20) 1 1),
        (Demo.copy_pixels Demo.band_10), 0.006822.
      repeat split; try (vm_compute; reflexivity). by left.
    + exists 0%nat, "HGH", Demo.band_1,
        (from_bounds (-50.5) (-20.5) (-50) (-20) 2 2),
        (Demo.copy_pixels Demo.band_1), 0.676.
      repeat split; try (vm_compute; reflexivity). by left.
Defined.

(** ** The corners of the scene *)

Lemma str_split_two x y :
  str_in "," x = false → str_in "," y = false →
  str_split ", " (x +:+ (", " +:+ y)) = [x; y].
Proof.
  intros Hx Hy. unfold str_split.
  rewrite (split_from_at "," " " x) by done.
  by rewrite (split_from_none "," " ") by done.
Qed.

(** X15. The metadata gives each corner as "latitude, longitude" and the
    conversion reverses it: for a scene whose metadata is read, the transform
    of a raster of [rows] rows and [cols] columns is [from_bounds] with the
    longitude of the upper-left corner as west, the latitude of the
    lower-right corner as south, the longitude of the lower-right corner as
    east and the latitude of the upper-left corner as north, the width being
    the number of columns and the height the number of rows. *)
Theorem corners_are_latitude_then_longitude `{Platform} aster sc
    ul_lat ul_lon lr_lat lr_lon :
  scene_constants aster = Ok sc →
  GetMetadata aster !! "UPPERLEFT" = Some (ul_lat +:+ (", " +:+ ul_lon)) →
  GetMetadata aster !! "LOWERRIGHT" = Some (lr_lat +:+ (", " +:+ lr_lon)) →
  str_in "," ul_lat = false → str_in "," ul_lon = false →
  str_in "," lr_lat = false → str_in "," lr_lon = false →
  ∃ west north east south,
    np_float64 ul_lon = Ok west ∧ np_float64 ul_lat = Ok north ∧
    np_float64 lr_lon = Ok east ∧ np_float64 lr_lat = Ok south ∧
    sc_ul sc = [west; north] ∧ sc_lr sc = [east; south] ∧
    ∀ rows cols,
      source_transform (sc_ul sc) (sc_lr sc) [rows; cols] =
        Ok (from_bounds west south east north cols rows).
Proof.
  intros Hsc Hul Hlr Hc1 Hc2 Hc3 Hc4. unfold scene_constants in Hsc.
  apply rbind_Ok in Hsc as (sd & _ & Hsc).
  apply rbind_Ok in Hsc as (solar & _ & Hsc).
  apply rbind_Ok in Hsc as (gd & _ & Hsc).
  apply rbind_Ok in Hsc as (uls & Huls & Hsc).
  apply rbind_Ok in Hsc as (ul & Hulv & Hsc).
  apply rbind_Ok in Hsc as (lrs & Hlrs & Hsc).
  apply rbind_Ok in Hsc as (lr & Hlrv & Hsc).
  apply rbind_Ok in Hsc as (cd & _ & Hsc).
  apply rbind_Ok in Hsc as (doy & _ & Hsc).
  injection Hsc as <-. cbn [sc_ul sc_lr].
  apply getitem_Ok_inv in Huls, Hlrs.
  assert (uls = ul_lat +:+ (", " +:+ ul_lon)) as -> by congruence.
  assert (lrs = lr_lat +:+ (", " +:+ lr_lon)) as -> by congruence.
  rewrite str_split_two in Hulv, Hlrv by done.
  change (reverse [ul_lat; ul_lon]) with [ul_lon; ul_lat] in Hulv.
  change (reverse [lr_lat; lr_lon]) with [lr_lon; lr_lat] in Hlrv.
  cbn [rmap] in Hulv, Hlrv.
  destruct (np_float64 ul_lon) as [west|]; [|done].
  destruct (np_float64 ul_lat) as [north|]; [|done].
  destruct (np_float64 lr_lon) as [east|]; [|done].
  destruct (np_float64 lr_lat) as [south|]; [|done].
  cbn [rbind] in Hulv, Hlrv. injection Hulv as <-. injection Hlrv as <-.
  by exists west, north, east, south.
Qed.

Lemma corners_are_latitude_then_longitude_demo :
  ∃ west north east south,
    Demo.decimal "-50.5" = Ok west ∧ Demo.decimal "-20.0" = Ok north ∧
    Demo.decimal "-50.0" = Ok east ∧ Demo.decimal "-20.5" = Ok south ∧
    sc_ul (Demo.constants Demo.scene) = [west; north] ∧
    sc_lr (Demo.constants Demo.scene) = [east; south] ∧
    ∀ rows cols,
      source_transform (sc_ul (Demo.constants Demo.scene))
        (sc_lr (Demo.constants Demo.scene)) [rows; cols] =
        Ok (from_bounds west south east north cols rows).
Proof.
  apply (@corners_are_latitude_then_longitude Demo.platform Demo.scene
           (Demo.constants Demo.scene) "-20.0" "-50.5" "-20.5" "-50.0");
    vm_compute; reflexivity.
Defined.

(** * The gains and the coefficients in the band loop *)

Section LoopLookups.
Context `{Platform}.
Variables (aster_file : string) (destination : loc).
Variables (dst_transform : Affine) (dst_crs : CRS) (resampling : Resampling).
Variables (return_radiance : bool).

(** The scene: its file opens, its metadata reads, and the destination is a
    two-dimensional array [a] of [m] rows and [n] columns. *)
Variables (h : heap) (aster : Dataset) (sc : SceneConstants).
Variables (a : ndarray) (m n : nat).
Hypothesis Hopen : gdal_Open aster_file = Some aster.
Hypothesis Hmetadata : scene_constants aster = Ok sc.
Hypothesis Hdestination : h !! destination = Some a.
Hypothesis Hshape : shape a = [m; n].
Hypothesis Hlength : length (data a) = (m * n)%nat.

Local Abbreviation run :=
  (process_aster_dataset aster_file destination dst_transform dst_crs
     resampling return_radiance).
Local Abbreviation bands := (if return_radiance then 15 else 10)%nat.
Local Abbreviation ready :=
  (band_ready dst_transform dst_crs resampling return_radiance
     (sc_solar_direction sc) (sc_gain_dict sc) (sc_ul sc) (sc_lr sc) a).
Local Abbreviation rasters := (raster_list_of (GetSubDatasets aster)).

(** What a pixel function gives when the coefficient is not a number. *)
Lemma writes_pixel_undefined d solar_direction band g x :
  writes_pixel return_radiance d solar_direction band np_nan g → g x = np_nan.
Proof.
  unfold writes_pixel. destruct return_radiance.
  - intros ->. apply radiance_pixel_undefined.
  - intros (_ & irr & elev & _ & _ & ->). cbv beta.
    rewrite radiance_pixel_undefined. apply reflectance_pixel_nan.
Qed.

(** The slot of a ready raster in a scene of distinct bands: every pixel of
    it holds what the step of the raster computes from the value reprojected
    there. *)
Lemma ready_slot r index out h' arr :
  NoDup (band_of <$> rasters) →
  r ∈ rasters → ready r →
  index_dict !! band_of r = Some index → (index < bands)%nat →
  run h = (Ok out, h') → h' !! out = Some arr →
  ∃ gain source t f c g,
    sc_gain_dict sc !! band_of r = Some gain ∧
    rasterio_read r = Ok source ∧
    source_transform (sc_ul sc) (sc_lr sc) (shape source) = Ok t ∧
    reproject source a t "epsg:4326" dst_transform dst_crs resampling = Ok f ∧
    coefficient_of (band_of r) gain = Ok c ∧
    writes_pixel return_radiance (earth_sun_distance (sc_doy sc))
      (sc_solar_direction sc) (band_of r) c g ∧
    ∀ i j, (i < m)%nat → (j < n)%nat →
           get3 arr i j index = Some (g (f (i * n + j)%nat)).
Proof using All.
  intros Hnd Hr (index' & gain & source & t & f & c & Hi' & Hg & Hsrc & Ht
                 & Hf & Hc & Hmode) Hidx Hlt Hrun Harr.
  assert (index' = index) as -> by congruence.
  assert (∃ g, writes_pixel return_radiance (earth_sun_distance (sc_doy sc))
                 (sc_solar_direction sc) (band_of r) c g) as [g Hw].
  { unfold writes_pixel. destruct return_radiance; [by eexists|].
    pose proof (index_dict_first_ten_inv _ _ Hidx Hlt) as Hten.
    destruct Hmode as [?|[?|[[irr Hirr] [elev Helev]]]]; [done..|].
    eexists. split; [done|]. by exists irr, elev. }
  destruct (split_at_band _ r Hr Hnd) as (before & after & Hl & Hafter).
  destruct (output_pixel aster_file destination dst_transform dst_crs resampling
              return_radiance h aster sc a m n before r after index gain source
              t f c g out h' Hopen Hmetadata Hdestination Hshape Hlength Hl
              Hafter Hidx Hg Hsrc Ht Hf Hc Hw Hrun) as (arr' & Harr' & Hpix).
  assert (arr' = arr) as -> by congruence.
  by exists gain, source, t, f, c, g.
Qed.

(** C6: the gain that the band loop uses for a raster of one of the bands
    "10" to "14" is NOR, whatever the metadata of the scene says. For such a
    raster that is read and reprojected, the other rasters of the scene being
    ready, nothing is assumed of its gain or of its coefficient: the lookup
    of its gain gives NOR, the coefficient of the band at NOR is in the table
    and is a number, the conversion returns (no lookup of the loop fails)
    and, in radiance mode, every pixel of the slot of the band holds the
    radiance computed with that coefficient. *)
Theorem thermal_bands_use_normal_gain before raster after source t f :
  rasters = (before ++ raster :: after)%list →
  (∀ r, r ∈ (before ++ after)%list → ready r) →
  (∀ r, r ∈ after → band_of r ≠ band_of raster) →
  band_of raster ∈ ["10"; "11"; "12"; "13"; "14"] →
  rasterio_read raster = Ok source →
  source_transform (sc_ul sc) (sc_lr sc) (shape source) = Ok t →
  reproject source a t "epsg:4326" dst_transform dst_crs resampling = Ok f →
  ∃ index c out h' arr,
    index_dict !! band_of raster = Some index ∧
    getitem (sc_gain_dict sc) (band_of raster) = Ok "NOR" ∧
    coefficient_of (band_of raster) "NOR" = Ok c ∧
    PrimFloat.is_nan c = false ∧
    run h = (Ok out, h') ∧ h' !! out = Some arr ∧
    (return_radiance = true →
     ∀ i j, (i < m)%nat → (j < n)%nat →
            get3 arr i j index = Some (radiance_pixel c (f (i * n + j)%nat))).
Proof using All.
  intros Hl Hothers Hafter Hband Hsrc Ht Hf.
  destruct (scene_constants_inv aster sc Hmetadata) as [Hgd _].
  pose proof (make_gain_dict_thermal _ _ (band_of raster) Hgd Hband) as Hnor.
  destruct (thermal_coefficient_defined (band_of raster) Hband) as (c & Hc & Hnan).
  assert (∃ index, index_dict !! band_of raster = Some index ∧
                   band_of raster ∉ take 10 band_index) as (index & Hidx & Hout).
  { clear -Hband.
    repeat (apply elem_of_cons in Hband as [Hb|Hband];
            [rewrite Hb; eexists; split; [vm_compute; reflexivity|];
             apply (proj1 (bool_decide_eq_false _)); vm_compute; reflexivity|]).
    by apply elem_of_nil in Hband. }
  assert (ready raster) as Hready.
  { exists index, "NOR", source, t, f, c. repeat split; try done.
    destruct return_radiance; [by left|right; by left]. }
  destruct (conversion_returns destination dst_transform dst_crs resampling
              return_radiance h sc a m n Hdestination Hshape Hlength
              aster_file aster Hopen Hmetadata) as (out & h' & arr & Hrun & Harr).
  { intros r Hr. rewrite Hl in Hr.
    apply elem_of_app in Hr as [Hr|Hr]; [apply Hothers, elem_of_app; by left|].
    apply elem_of_cons in Hr as [->|Hr]; [done|].
    apply Hothers, elem_of_app. by right. }
  exists index, c, out, h', arr. repeat split; try done; [by apply getitem_Ok|].
  intros Hrr i j Hi Hj.
  destruct (output_pixel aster_file destination dst_transform dst_crs resampling
              return_radiance h aster sc a m n before raster after index "NOR"
              source t f c (radiance_pixel c) out h' Hopen Hmetadata Hdestination
              Hshape Hlength Hl Hafter Hidx Hnor Hsrc Ht Hf Hc)
    as (arr' & Harr' & Hpix); [|done|].
  { unfold writes_pixel. by rewrite Hrr. }
  assert (arr' = arr) as -> by congruence. by apply Hpix.
Qed.

(** C8: a band whose coefficient is not-a-number at its gain does not abort
    the conversion. In a scene of distinct bands whose rasters are all ready
    (the lookup of a coefficient that is not a number succeeds), the
    conversion returns; every pixel of the slot of that band is
    not-a-number; and every raster of the scene whose band has a slot, those
    that come after it too, has its own slot written with what its step
    computes. *)
Theorem undefined_coefficient_does_not_abort raster index gain :
  NoDup (band_of <$> rasters) →
  (∀ r, r ∈ rasters → ready r) →
  raster ∈ rasters →
  index_dict !! band_of raster = Some index → (index < bands)%nat →
  sc_gain_dict sc !! band_of raster = Some gain →
  coefficient_of (band_of raster) gain = Ok np_nan →
  ∃ out h' arr,
    run h = (Ok out, h') ∧ h' !! out = Some arr ∧
    (∀ i j, (i < m)%nat → (j < n)%nat → get3 arr i j index = Some np_nan) ∧
    ∀ r k, r ∈ rasters → index_dict !! band_of r = Some k → (k < bands)%nat →
      ∃ gain' source t f c g,
        sc_gain_dict sc !! band_of r = Some gain' ∧
        rasterio_read r = Ok source ∧
        source_transform (sc_ul sc) (sc_lr sc) (shape source) = Ok t ∧
        reproject source a t "epsg:4326" dst_transform dst_crs resampling = Ok f ∧
        coefficient_of (band_of r) gain' = Ok c ∧
        writes_pixel return_radiance (earth_sun_distance (sc_doy sc))
          (sc_solar_direction sc) (band_of r) c g ∧
        ∀ i j, (i < m)%nat → (j < n)%nat →
               get3 arr i j k = Some (g (f (i * n + j)%nat)).
Proof using All.
  intros Hnd Hready Hr Hidx Hlt Hgain Hc.
  destruct (conversion_returns destination dst_transform dst_crs resampling
              return_radiance h sc a m n Hdestination Hshape Hlength
              aster_file aster Hopen Hmetadata Hready)
    as (out & h' & arr & Hrun & Harr).
  exists out, h', arr. repeat split; try done.
  - intros i j Hi Hj.
    destruct (ready_slot raster index out h' arr Hnd Hr (Hready raster Hr) Hidx
                Hlt Hrun Harr)
      as (gain' & source & t & f & c & g & Hg' & _ & _ & _ & Hc' & Hw & Hpix).
    assert (gain' = gain) as -> by congruence.
    assert (c = np_nan) as -> by congruence.
    rewrite (Hpix i j Hi Hj). f_equal. by eapply writes_pixel_undefined.
  - intros r k Hrk Hk Hklt.
    by apply (ready_slot r k out h' arr Hnd Hrk (Hready r Hrk)).
Qed.

End LoopLookups.

Lemma thermal_bands_use_normal_gain_demo :
  ∃ index c out h' arr,
    index_dict !! band_of (Demo.raster_name "10") = Some index ∧
    getitem (sc_gain_dict (Demo.constants Demo.scene))
      (band_of (Demo.raster_name "10")) = Ok "NOR" ∧
    coefficient_of (band_of (Demo.raster_name "10")) "NOR" = Ok c ∧
    PrimFloat.is_nan c = false ∧
    Demo.convert "scene.hdf" true = (Ok out, h') ∧ h' !! out = Some arr ∧
    (true = true →
     ∀ i j, (i < 2)%nat → (j < 2)%nat →
            get3 arr i j index =
              Some (radiance_pixel c (Demo.copy_pixels Demo.band_10 (i * 2 + j)%nat))).
Proof.
  apply (@thermal_bands_use_normal_gain Demo.platform "scene.hdf" Demo.destination
           Demo.grid "epsg:32722" nearest true Demo.heap0 Demo.scene
           (Demo.constants Demo.scene) Demo.fill 2 2
           ltac:(reflexivity) ltac:(vm_compute; reflexivity)
           ltac:(vm_compute; reflexivity) ltac:(reflexivity) ltac:(reflexivity)
           [Demo.raster_name "1"] (Demo.raster_name "10") [] Demo.band_10
           (from_bounds (-50.5) (-20.5) (-50) (-20) 1 1));
    try (vm_compute; reflexivity).
  - intros r Hr. apply list_elem_of_singleton in Hr. subst r.
    exists 0%nat, "HGH", Demo.band_1,
      (from_bounds (-50.5) (-20.5) (-50) (-20) 2 2),
      (Demo.copy_pixels Demo.band_1), 0.676.
    repeat split; try (vm_compute; reflexivity). by left.
  - intros r Hr. by apply elem_of_nil in Hr.
  - vm_compute. apply list_elem_of_here.
Defined.

Lemma undefined_coefficient_does_not_abort_demo :
  ∃ out h' arr,
    Demo.convert "scene_undefined.hdf" false = (Ok out, h') ∧
    h' !! out = Some arr ∧
    (∀ i j, (i < 2)%nat → (j < 2)%nat → get3 arr i j 0 = Some np_nan) ∧
    ∀ r k, r ∈ raster_list_of (GetSubDatasets Demo.scene_undefined) →
      index_dict !! band_of r = Some k → (k < 10)%nat →
      ∃ gain' source t f c g,
        sc_gain_dict (Demo.constants Demo.scene_undefined) !! band_of r = Some gain' ∧
        Demo.read r = Ok source ∧
        source_transform (sc_ul (Demo.constants Demo.scene_undefined))
          (sc_lr (Demo.constants Demo.scene_undefined)) (shape source) = Ok t ∧
        Demo.warp source t = Ok f ∧
        coefficient_of (band_of r) gain' = Ok c ∧
        @writes_pixel Demo.platform false
          (@earth_sun_distance Demo.platform
             (sc_doy (Demo.constants Demo.scene_undefined)))
          (sc_solar_direction (Demo.constants Demo.scene_undefined))
          (band_of r) c g ∧
        ∀ i j, (i < 2)%nat → (j < 2)%nat →
               get3 arr i j k = Some (g (f (i * 2 + j)%nat)).
Proof.
  apply (@undefined_coefficient_does_not_abort Demo.platform "scene_undefined.hdf"
           Demo.destination Demo.grid "epsg:32722" nearest false Demo.heap0
           Demo.scene_undefined (Demo.constants Demo.scene_undefined) Demo.fill 2 2
           ltac:(reflexivity) ltac:(vm_compute; reflexivity)
           ltac:(vm_compute; reflexivity) ltac:(reflexivity) ltac:(reflexivity)
           (Demo.raster_name "1") 0%nat "LG2");
    try (vm_compute; reflexivity).
  - apply (bool_decide_unpack _). vm_compute. exact I.
  - intros r Hr.
    change (r ∈ [Demo.raster_name "1"; Demo.raster_name "2"]) in Hr.
    apply elem_of_cons in Hr as [->|Hr];
      [|apply list_elem_of_singleton in Hr; subst r].
    + exists 0%nat, "LG2", Demo.band_1,
        (from_bounds (-50.5) (-20.5) (-50) (-20) 2 2),
        (Demo.copy_pixels Demo.band_1), np_nan.
      repeat split; try (vm_compute; reflexivity).
      right. right. split; eexists; vm_compute; reflexivity.
    + exists 1%nat, "NOR", Demo.band_2,
        (from_bounds (-50.5) (-20.5) (-50) (-20) 2 2),
        (Demo.copy_pixels Demo.band_2), 1.415.
      repeat split; try (vm_compute; reflexivity).
      right. right. split; eexists; vm_compute; reflexivity.
  - change (Demo.raster_name "1" ∈ [Demo.raster_name "1"; Demo.raster_name "2"]).
    apply list_elem_of_here.
  - vm_compute. lia.
Defined.
